(** * Easing functions of [emath] (crates/emath/src/easing.rs)

    A shallow embedding of the easing catalog of [emath]: the [Easing]
    enum, its dispatch to forward and inverse curve functions, the
    [From<usize>] conversion, the [Easings] iterator and the thirty curve
    functions with their inverses.

    [f64] is modelled by Rocq's primitive binary64 floats, whose
    [+ - * /], [sqrt] and [abs] are the IEEE-754 operations Rust uses.
    The transcendental functions [sin], [cos], [asin], [acos], [cbrt],
    [log2] and [powf] are the platform's libm and are left as parameters
    (the type class [Libm]); statements that depend on their values
    assume only how close libm is to the correctly rounded result at the
    finitely many arguments the statement evaluates. A panic
    ([unreachable!], [unimplemented!]) is [None]. *)

From Stdlib Require Import ZArith List Bool Lia Floats.
Import ListNotations.

Set Warnings "-inexact-float".

(** ** The catalog *)

Inductive Easing : Type :=
  | SineIn | SineOut | SineInOut
  | QuadIn | QuadOut | QuadInOut
  | CubicIn | CubicOut | CubicInOut
  | QuartIn | QuartOut | QuartInOut
  | QuintIn | QuintOut | QuintInOut
  | ExpoIn | ExpoOut | ExpoInOut
  | CircIn | CircOut | CircInOut
  | BackIn | BackOut | BackInOut
  | ElasticIn | ElasticOut | ElasticInOut
  | BounceIn | BounceOut | BounceInOut
  | Max.

Scheme Equality for Easing.

(** [e as usize]: the discriminant of a [#[repr(usize)]] enum is its
    position in the declaration. *)
Definition ordinal (e : Easing) : nat :=
  match e with
  | SineIn => 0 | SineOut => 1 | SineInOut => 2
  | QuadIn => 3 | QuadOut => 4 | QuadInOut => 5
  | CubicIn => 6 | CubicOut => 7 | CubicInOut => 8
  | QuartIn => 9 | QuartOut => 10 | QuartInOut => 11
  | QuintIn => 12 | QuintOut => 13 | QuintInOut => 14
  | ExpoIn => 15 | ExpoOut => 16 | ExpoInOut => 17
  | CircIn => 18 | CircOut => 19 | CircInOut => 20
  | BackIn => 21 | BackOut => 22 | BackInOut => 23
  | ElasticIn => 24 | ElasticOut => 25 | ElasticInOut => 26
  | BounceIn => 27 | BounceOut => 28 | BounceInOut => 29
  | Max => 30
  end.

(** [impl From<usize> for Easing]. *)
Definition easing_from (value : nat) : Easing :=
  match value with
  | 0 => SineIn | 1 => SineOut | 2 => SineInOut
  | 3 => QuadIn | 4 => QuadOut | 5 => QuadInOut
  | 6 => CubicIn | 7 => CubicOut | 8 => CubicInOut
  | 9 => QuartIn | 10 => QuartOut | 11 => QuartInOut
  | 12 => QuintIn | 13 => QuintOut | 14 => QuintInOut
  | 15 => ExpoIn | 16 => ExpoOut | 17 => ExpoInOut
  | 18 => CircIn | 19 => CircOut | 20 => CircInOut
  | 21 => BackIn | 22 => BackOut | 23 => BackInOut
  | 24 => ElasticIn | 25 => ElasticOut | 26 => ElasticInOut
  | 27 => BounceIn | 28 => BounceOut | 29 => BounceInOut
  | _ => Max
  end.

(** [Easing::reversible]. *)
Definition reversible (e : Easing) : bool :=
  match e with
  | SineIn | SineOut | SineInOut
  | QuadIn | QuadOut | QuadInOut
  | CubicIn | CubicOut | CubicInOut
  | QuartIn | QuartOut | QuartInOut
  | QuintIn | QuintOut | QuintInOut
  | ExpoIn | ExpoOut | ExpoInOut
  | CircIn | CircOut | CircInOut => true
  | _ => false
  end.

(** The families: the enum declares its variants in groups of three under
    one comment per family ([// Sine easing functions], ...). The sentinel
    [Max] belongs to none. *)
Inductive Family : Type :=
  | Sine | Quad | Cubic | Quart | Quint | Expo | Circ | Back | Elastic | Bounce.

Definition family (e : Easing) : option Family :=
  match e with
  | SineIn | SineOut | SineInOut => Some Sine
  | QuadIn | QuadOut | QuadInOut => Some Quad
  | CubicIn | CubicOut | CubicInOut => Some Cubic
  | QuartIn | QuartOut | QuartInOut => Some Quart
  | QuintIn | QuintOut | QuintInOut => Some Quint
  | ExpoIn | ExpoOut | ExpoInOut => Some Expo
  | CircIn | CircOut | CircInOut => Some Circ
  | BackIn | BackOut | BackInOut => Some Back
  | ElasticIn | ElasticOut | ElasticInOut => Some Elastic
  | BounceIn | BounceOut | BounceInOut => Some Bounce
  | Max => None
  end.

Definition invertible_families : list Family :=
  [Sine; Quad; Cubic; Quart; Quint; Expo; Circ].

Definition irreversible_families : list Family := [Back; Elastic; Bounce].

(** The [InOut] variants. *)
Definition is_in_out (e : Easing) : bool :=
  match e with
  | SineInOut | QuadInOut | CubicInOut | QuartInOut | QuintInOut
  | ExpoInOut | CircInOut | BackInOut | ElasticInOut | BounceInOut => true
  | _ => false
  end.

(** ** The iterator [Easings] *)

Record Easings : Type := { current : Easing }.

(** [Easings::new], which is also [Easing::all]. *)
Definition Easings_new : Easings := {| current := SineIn |}.

Definition all : Easings := Easings_new.

(** [<Easings as Iterator>::next]: the item and the updated cursor. *)
Definition next (self : Easings) : option Easing * Easings :=
  if negb (Easing_beq self.(current) Max) then
    let tmp := self.(current) in
    (Some tmp, {| current := easing_from (ordinal tmp + 1) |})
  else (None, self).

(** Calling [next] [n] times: the items returned, and the final cursor. *)
Fixpoint next_n (n : nat) (it : Easings) : list (option Easing) * Easings :=
  match n with
  | O => ([], it)
  | S n' =>
      let (x, it1) := next it in
      let (xs, it2) := next_n n' it1 in (x :: xs, it2)
  end.

(** Draining the iterator as [collect] does, for at most [fuel] calls of
    [next]: the items before the first [None], and the final cursor. *)
Fixpoint drain (fuel : nat) (it : Easings) : list Easing * Easings :=
  match fuel with
  | O => ([], it)
  | S fuel' =>
      match next it with
      | (Some x, it1) => let (xs, it2) := drain fuel' it1 in (x :: xs, it2)
      | (None, it1) => ([], it1)
      end
  end.

(** ** Floating point *)

Open Scope float_scope.

(** The libm functions the curves call, with Rust's names. *)
Class Libm : Type := {
  sin : float -> float;
  cos : float -> float;
  asin : float -> float;
  acos : float -> float;
  cbrt : float -> float;
  log2 : float -> float;
  powf : float -> float -> float
}.

(** [std::f64::consts::PI]. *)
Definition PI : float := 0x1.921fb54442d18p+1.

(** [f64::powi]: LLVM expands [llvm.powi] by binary exponentiation, the
    loop of compiler-rt's [__powidf2]
    ([if b & 1 { r *= a }; b /= 2; if b == 0 { break }; a *= a]). *)
Fixpoint powi_loop (a r : float) (b : positive) : float :=
  match b with
  | xH => r * a
  | xO b' => powi_loop (a * a) r b'
  | xI b' => powi_loop (a * a) (r * a) b'
  end.

Definition powi (a : float) (b : Z) : float :=
  match b with
  | Z0 => 1
  | Zpos p => powi_loop a 1 p
  | Zneg p => 1 / powi_loop a 1 p
  end.

Notation "x == y" := (PrimFloat.eqb x y) (at level 70, no associativity) : float_scope.
Notation "x < y" := (PrimFloat.ltb x y) : float_scope.
Notation "a || b" := (orb a b) : float_scope.

Section Curves.
Context {L : Libm}.

(** *** Sine *)

Definition sine_in (x : float) : float :=
  if (x == 0) || (x == 1) then x else 1 - cos (x * PI / 2).

Definition inverse_sine_in (x : float) : float :=
  if (x == 0) || (x == 1) then x else 2 * acos (1 - x) / PI.

Definition sine_out (x : float) : float :=
  if (x == 0) || (x == 1) then x else sin (x * PI / 2).

Definition inverse_sine_out (x : float) : float :=
  if (x == 0) || (x == 1) then x else 2 * asin x / PI.

(** The one formula of [sine_in_out], for both halves. *)
Definition sine_in_out_curve (x : float) : float := - (cos (x * PI) - 1) / 2.

Definition sine_in_out (x : float) : float :=
  if (x == 0) || (x == 1) then x else sine_in_out_curve x.

Definition inverse_sine_in_out (x : float) : float :=
  if (x == 0) || (x == 1) then x else acos (1 - 2 * x) / PI.

(** *** Quad *)

Definition quad_in (x : float) : float := x * x.

Definition inverse_quad_in (x : float) : float := sqrt x.

Definition quad_out (x : float) : float := 1 - (1 - x) * (1 - x).

Definition inverse_quad_out (x : float) : float := 1 - sqrt (1 - x).

Definition quad_in_out_in_half (x : float) : float := 2 * x * x.

Definition quad_in_out_out_half (x : float) : float :=
  let v := -2 * x + 2 in 1 - v * v / 2.

Definition quad_in_out (x : float) : float :=
  if x < 0.5 then quad_in_out_in_half x else quad_in_out_out_half x.

Definition inverse_quad_in_out (x : float) : float :=
  if x < 0.5 then sqrt (x / 2) else 1 - sqrt ((1 - x) / 2).

(** *** Cubic *)

Definition cubic_in (x : float) : float := x * x * x.

Definition inverse_cubic_in (x : float) : float := cbrt x.

Definition cubic_out (x : float) : float := 1 - (1 - x) * (1 - x) * (1 - x).

Definition inverse_cubic_out (x : float) : float := 1 - cbrt (1 - x).

Definition cubic_in_out_in_half (x : float) : float := 4 * x * x * x.

Definition cubic_in_out_out_half (x : float) : float :=
  1 - powi (-2 * x + 2) 3 / 2.

Definition cubic_in_out (x : float) : float :=
  if (x == 0) || (x == 1) then x
  else if x < 0.5 then cubic_in_out_in_half x
  else cubic_in_out_out_half x.

Definition inverse_cubic_in_out (x : float) : float :=
  if (x == 0) || (x == 1) then x
  else if x < 0.5 then cbrt (x / 4)
  else 1 - (cbrt (2 * (1 - x)) / 2).

(** *** Quart *)

Definition quart_in (x : float) : float := x * x * x * x.

Definition inverse_quart_in (x : float) : float := powf x (1 / 4).

Definition quart_out (x : float) : float := 1 - powi (1 - x) 4.

Definition inverse_quart_out (x : float) : float := 1 - powf (1 - x) (1 / 4).

Definition quart_in_out_in_half (x : float) : float := 8 * x * x * x * x.

Definition quart_in_out_out_half (x : float) : float :=
  1 - powi (-2 * x + 2) 4 / 2.

Definition quart_in_out (x : float) : float :=
  if x < 0.5 then quart_in_out_in_half x else quart_in_out_out_half x.

Definition inverse_quart_in_out (x : float) : float :=
  if (x == 0) || (x == 1) then x
  else if x < 0.5 then powf (x / 8) (1 / 4)
  else 1 - (powf (2 * (1 - x)) (1 / 4) / 2).

(** *** Quint *)

Definition quint_in (x : float) : float := x * x * x * x * x.

Definition inverse_quint_in (x : float) : float := powf x (1 / 5).

Definition quint_out (x : float) : float := 1 - powi (1 - x) 5.

Definition inverse_quint_out (x : float) : float := 1 - powf (1 - x) (1 / 5).

Definition quint_in_out_in_half (x : float) : float := 16 * x * x * x * x * x.

Definition quint_in_out_out_half (x : float) : float :=
  1 - powi (-2 * x + 2) 5 / 2.

Definition quint_in_out (x : float) : float :=
  if x < 0.5 then quint_in_out_in_half x else quint_in_out_out_half x.

Definition inverse_quint_in_out (x : float) : float :=
  if (x == 0) || (x == 1) then x
  else if x < 0.5 then powf (x / 16) (1 / 5)
  else 1 - (powf (2 * (1 - x)) (1 / 5) / 2).

(** *** Expo *)

Definition expo_in (x : float) : float :=
  if (x == 0) || (x == 1) then x else powf 2 (10 * x - 10).

Definition inverse_expo_in (x : float) : float :=
  if (x == 0) || (x == 1) then x else (log2 x / 10) + 1.

Definition expo_out (x : float) : float :=
  if (x == 0) || (x == 1) then x else 1 - powf 2 (-10 * x).

Definition inverse_expo_out (x : float) : float :=
  if (x == 0) || (x == 1) then x else - (log2 (1 - x) / 10).

Definition expo_in_out_in_half (x : float) : float := powf 2 (20 * x - 10) / 2.

Definition expo_in_out_out_half (x : float) : float :=
  (2 - powf 2 (-20 * x + 10)) / 2.

Definition expo_in_out (x : float) : float :=
  if (x == 0) || (x == 1) then x
  else if x < 0.5 then expo_in_out_in_half x
  else expo_in_out_out_half x.

Definition inverse_expo_in_out (x : float) : float :=
  if (x == 0) || (x == 1) then x
  else if x < 0.5 then (log2 (2 * x) + 10) / 20
  else 1 - (log2 (2 - 2 * x) + 10) / 20.

(** *** Circ *)

Definition circ_in (x : float) : float := 1 - sqrt (1 - powi x 2).

Definition inverse_circ_in (x : float) : float := sqrt (1 - powi (1 - x) 2).

Definition circ_out (x : float) : float := sqrt (1 - powi (x - 1) 2).

Definition inverse_circ_out (y : float) : float := 1 - sqrt (1 - powi y 2).

Definition circ_in_out_in_half (x : float) : float :=
  (1 - sqrt (1 - powi (2 * x) 2)) / 2.

Definition circ_in_out_out_half (x : float) : float :=
  (sqrt (1 - powi (-2 * x + 2) 2) + 1) / 2.

Definition circ_in_out (x : float) : float :=
  if x < 0.5 then circ_in_out_in_half x else circ_in_out_out_half x.

Definition inverse_circ_in_out (y : float) : float :=
  if y < 0.5 then sqrt (1 - powi (1 - 2 * y) 2) / 2
  else 1 - sqrt (1 - powi (2 * y - 1) 2) / 2.

(** *** Back *)

Definition back_C1 : float := 1.70158.
Definition back_C3 : float := back_C1 + 1.
Definition back_C2 : float := back_C1 * 1.525.

Definition back_in (x : float) : float :=
  if (x == 0) || (x == 1) then x
  else back_C3 * x * x * x - back_C1 * x * x.

Definition back_out (x : float) : float :=
  if (x == 0) || (x == 1) then x
  else 1 + back_C3 * (powi (x - 1) 3) + back_C1 * (powi (x - 1) 2).

Definition back_in_out_in_half (x : float) : float :=
  (powi (2 * x) 2 * ((back_C2 + 1) * 2 * x - back_C2)) / 2.

Definition back_in_out_out_half (x : float) : float :=
  (powi (2 * x - 2) 2 * ((back_C2 + 1) * (x * 2 - 2) + back_C2) + 2) / 2.

Definition back_in_out (x : float) : float :=
  if x < 0.5 then back_in_out_in_half x else back_in_out_out_half x.

(** *** Elastic *)

Definition elastic_in (x : float) : float :=
  let x2 := x * x in x2 * x2 * sin (x * PI * 4.5).

Definition elastic_out (x : float) : float :=
  let x2 := (x - 1) * (x - 1) in 1 - x2 * x2 * cos (x * PI * 4.5).

Definition elastic_in_out_in_half (x : float) : float :=
  let x2 := x * x in 8 * x2 * x2 * sin (x * PI * 9).

Definition elastic_in_out_middle (x : float) : float :=
  0.5 + 0.75 * sin (x * PI * 4).

Definition elastic_in_out_out_half (x : float) : float :=
  let x2 := (x - 1) * (x - 1) in 1 - 8 * x2 * x2 * sin (x * PI * 9).

Definition elastic_in_out (x : float) : float :=
  if x < 0.45 then elastic_in_out_in_half x
  else if x < 0.55 then elastic_in_out_middle x
  else elastic_in_out_out_half x.

(** *** Bounce *)

Definition bounce_in (x : float) : float :=
  powf 2 (6 * (x - 1)) * abs (sin (x * PI * 3.5)).

Definition bounce_out (x : float) : float :=
  1 - powf 2 (-6 * x) * abs (cos (x * PI * 3.5)).

Definition bounce_in_out_in_half (x : float) : float :=
  8 * powf 2 (8 * (x - 1)) * abs (sin (x * PI * 7)).

Definition bounce_in_out_out_half (x : float) : float :=
  1 - 8 * powf 2 (-8 * x) * abs (sin (x * PI * 7)).

Definition bounce_in_out (x : float) : float :=
  if x < 0.5 then bounce_in_out_in_half x else bounce_in_out_out_half x.

(** *** The irreversible inverses: [unimplemented!("... is irreversible")]. *)

Definition inverse_back_in (y : float) : option float := None.
Definition inverse_back_out (x : float) : option float := None.
Definition inverse_back_in_out (x : float) : option float := None.
Definition inverse_elastic_in (x : float) : option float := None.
Definition inverse_elastic_out (x : float) : option float := None.
Definition inverse_elastic_in_out (x : float) : option float := None.
Definition inverse_bounce_in (x : float) : option float := None.
Definition inverse_bounce_out (x : float) : option float := None.
Definition inverse_bounce_in_out (x : float) : option float := None.

(** A [fn(f64) -> f64] that returns normally. *)
Definition total (f : float -> float) : float -> option float := fun x => Some (f x).

(** ** Dispatch *)

(** [Easing::apply_function]; [None] is the [unreachable!()] of [Max]. *)
Definition apply_function (e : Easing) : option (float -> float) :=
  match e with
  | SineIn => Some sine_in
  | SineOut => Some sine_out
  | SineInOut => Some sine_in_out
  | QuadIn => Some quad_in
  | QuadOut => Some quad_out
  | QuadInOut => Some quad_in_out
  | CubicIn => Some cubic_in
  | CubicOut => Some cubic_out
  | CubicInOut => Some cubic_in_out
  | QuartIn => Some quart_in
  | QuartOut => Some quart_out
  | QuartInOut => Some quart_in_out
  | QuintIn => Some quint_in
  | QuintOut => Some quint_out
  | QuintInOut => Some quint_in_out
  | ExpoIn => Some expo_in
  | ExpoOut => Some expo_out
  | ExpoInOut => Some expo_in_out
  | CircIn => Some circ_in
  | CircOut => Some circ_out
  | CircInOut => Some circ_in_out
  | BackIn => Some back_in
  | BackOut => Some back_out
  | BackInOut => Some back_in_out
  | ElasticIn => Some elastic_in
  | ElasticOut => Some elastic_out
  | ElasticInOut => Some elastic_in_out
  | BounceIn => Some bounce_in
  | BounceOut => Some bounce_out
  | BounceInOut => Some bounce_in_out
  | Max => None
  end.

(** [Easing::inverse_function]; [None] is the [unreachable!()] of [Max]. *)
Definition inverse_function (e : Easing) : option (float -> option float) :=
  match e with
  | SineIn => Some (total inverse_sine_in)
  | SineOut => Some (total inverse_sine_out)
  | SineInOut => Some (total inverse_sine_in_out)
  | QuadIn => Some (total inverse_quad_in)
  | QuadOut => Some (total inverse_quad_out)
  | QuadInOut => Some (total inverse_quad_in_out)
  | CubicIn => Some (total inverse_cubic_in)
  | CubicOut => Some (total inverse_cubic_out)
  | CubicInOut => Some (total inverse_cubic_in_out)
  | QuartIn => Some (total inverse_quart_in)
  | QuartOut => Some (total inverse_quart_out)
  | QuartInOut => Some (total inverse_quart_in_out)
  | QuintIn => Some (total inverse_quint_in)
  | QuintOut => Some (total inverse_quint_out)
  | QuintInOut => Some (total inverse_quint_in_out)
  | ExpoIn => Some (total inverse_expo_in)
  | ExpoOut => Some (total inverse_expo_out)
  | ExpoInOut => Some (total inverse_expo_in_out)
  | CircIn => Some (total inverse_circ_in)
  | CircOut => Some (total inverse_circ_out)
  | CircInOut => Some (total inverse_circ_in_out)
  | BackIn => Some inverse_back_in
  | BackOut => Some inverse_back_out
  | BackInOut => Some inverse_back_in_out
  | ElasticIn => Some inverse_elastic_in
  | ElasticOut => Some inverse_elastic_out
  | ElasticInOut => Some inverse_elastic_in_out
  | BounceIn => Some inverse_bounce_in
  | BounceOut => Some inverse_bounce_out
  | BounceInOut => Some inverse_bounce_in_out
  | Max => None
  end.

(** [Easing::apply]: [(self.apply_function())(t)]. *)
Definition apply (e : Easing) (t : float) : option float :=
  match apply_function e with
  | Some f => Some (f t)
  | None => None
  end.

(** [Easing::inverse]: [(self.inverse_function())(t)]. *)
Definition inverse (e : Easing) (t : float) : option float :=
  match inverse_function e with
  | Some f => f t
  | None => None
  end.

(** The two half formulas of each [InOut] curve: the one used below the
    midpoint ("In") and the one used above it ("Out"). [sine_in_out] has a
    single formula for both; [elastic_in_out] has a third formula on
    [[0.45, 0.55)]. *)
Definition in_out_halves (e : Easing) : option ((float -> float) * (float -> float)) :=
  match e with
  | SineInOut => Some (sine_in_out_curve, sine_in_out_curve)
  | QuadInOut => Some (quad_in_out_in_half, quad_in_out_out_half)
  | CubicInOut => Some (cubic_in_out_in_half, cubic_in_out_out_half)
  | QuartInOut => Some (quart_in_out_in_half, quart_in_out_out_half)
  | QuintInOut => Some (quint_in_out_in_half, quint_in_out_out_half)
  | ExpoInOut => Some (expo_in_out_in_half, expo_in_out_out_half)
  | CircInOut => Some (circ_in_out_in_half, circ_in_out_out_half)
  | BackInOut => Some (back_in_out_in_half, back_in_out_out_half)
  | ElasticInOut => Some (elastic_in_out_in_half, elastic_in_out_out_half)
  | BounceInOut => Some (bounce_in_out_in_half, bounce_in_out_out_half)
  | _ => None
  end.

(** Round trip [inverse(apply(t))]. *)
Definition round_trip (e : Easing) (t : float) : option float :=
  match apply e t with
  | Some y => inverse e y
  | None => None
  end.

End Curves.

(** ** What the statements assume of libm *)

(** A call of a libm function at given arguments. *)
Inductive libm_call : Type :=
  | Sin (x : float) | Cos (x : float) | Asin (x : float) | Acos (x : float)
  | Cbrt (x : float) | Log2 (x : float) | Powf (x y : float).

Definition eval_call {L : Libm} (c : libm_call) : float :=
  match c with
  | Sin x => sin x
  | Cos x => cos x
  | Asin x => asin x
  | Acos x => acos x
  | Cbrt x => cbrt x
  | Log2 x => log2 x
  | Powf x y => powf x y
  end.

(** The floats at most two ulps away from [r]. *)
Definition within_two_ulps (r : float) : list float :=
  [r; next_down r; next_up r; next_down (next_down r); next_up (next_up r)].

(** libm returns the listed (correctly rounded) result at each listed call. *)
Definition libm_exact_at {L : Libm} (pts : list (libm_call * float)) : Prop :=
  Forall (fun '(c, r) => eval_call c = r) pts.

(** libm is within two ulps of the listed correctly rounded result at each
    listed call (glibc's [cbrt], for one, is off by two ulps at some of
    them). *)
Definition libm_within_two_ulps_at {L : Libm} (pts : list (libm_call * float)) : Prop :=
  Forall (fun '(c, r) => In (eval_call c) (within_two_ulps r)) pts.

(** The libm calls of the thirty forward curves at [0.0] and [1.0], with their correctly rounded results. *)
Definition boundary_points : list (libm_call * float) := [
  (Sin 0x0.0p+0, 0x0.0p+0);
  (Sin 0x1.5fdbbe9bba775p+3, (-0x1.0000000000000p+0));
  (Sin 0x1.c463abeccb2bbp+3, 0x1.0000000000000p+0);
  (Sin 0x1.5fdbbe9bba775p+4, 0x1.ee2c2d963a10cp-51);
  (Sin 0x1.c463abeccb2bbp+4, 0x1.3daeaf976e788p-50);
  (Cos 0x0.0p+0, 0x1.0000000000000p+0);
  (Cos 0x1.5fdbbe9bba775p+3, (-0x1.ee2c2d963a10cp-52));
  (Cos 0x1.c463abeccb2bbp+3, 0x1.3daeaf976e788p-51);
  (Powf 0x1.0000000000000p+1 (-0x1.0000000000000p+3), 0x1.0000000000000p-8);
  (Powf 0x1.0000000000000p+1 (-0x1.8000000000000p+2), 0x1.0000000000000p-6);
  (Powf 0x1.0000000000000p+1 (-0x0.0p+0), 0x1.0000000000000p+0);
  (Powf 0x1.0000000000000p+1 0x0.0p+0, 0x1.0000000000000p+0)
].

(** The libm calls of the [InOut] half formulas at [0.5], with their correctly rounded results. *)
Definition midpoint_points : list (libm_call * float) := [
  (Sin 0x1.5fdbbe9bba775p+3, (-0x1.0000000000000p+0));
  (Sin 0x1.c463abeccb2bbp+3, 0x1.0000000000000p+0);
  (Cos 0x1.921fb54442d18p+0, 0x1.1a62633145c07p-54);
  (Powf 0x1.0000000000000p+1 (-0x1.0000000000000p+2), 0x1.0000000000000p-4);
  (Powf 0x1.0000000000000p+1 0x0.0p+0, 0x1.0000000000000p+0)
].

(** The libm calls of [inverse(apply(t))] for the 21 reversible curves and [t] in [0.0, 0.1, ..., 1.0], when every libm result is within two ulps of the correctly rounded one, with their correctly rounded results. *)
Definition round_trip_points : list (libm_call * float) := [
  (Sin 0x1.41b2f769cf0e0p-3, 0x1.4060b67a85375p-3);
  (Sin 0x1.41b2f769cf0e0p-2, 0x1.3c6ef372fe94fp-2);
  (Sin 0x1.e28c731eb6950p-2, 0x1.d0e2e2b44de00p-2);
  (Sin 0x1.41b2f769cf0e0p-1, 0x1.2cf2304755a5ep-1);
  (Sin 0x1.921fb54442d18p-1, 0x1.6a09e667f3bccp-1);
  (Sin 0x1.e28c731eb6950p-1, 0x1.9e3779b97f4a8p-1);
  (Sin 0x1.197c987c952c4p+0, 0x1.c83201d3d2c6cp-1);
  (Sin 0x1.41b2f769cf0e0p+0, 0x1.e6f0e134454ffp-1);
  (Sin 0x1.69e9565708efcp+0, 0x1.f9b24942fe45cp-1);
  (Cos 0x1.41b2f769cf0e0p-3, 0x1.f9b24942fe45cp-1);
  (Cos 0x1.41b2f769cf0e0p-2, 0x1.e6f0e134454ffp-1);
  (Cos 0x1.e28c731eb6950p-2, 0x1.c83201d3d2c6dp-1);
  (Cos 0x1.41b2f769cf0e0p-1, 0x1.9e3779b97f4a8p-1);
  (Cos 0x1.921fb54442d18p-1, 0x1.6a09e667f3bcdp-1);
  (Cos 0x1.e28c731eb6950p-1, 0x1.2cf2304755a5ep-1);
  (Cos 0x1.197c987c952c4p+0, 0x1.d0e2e2b44de01p-2);
  (Cos 0x1.41b2f769cf0e0p+0, 0x1.3c6ef372fe950p-2);
  (Cos 0x1.69e9565708efcp+0, 0x1.4060b67a85377p-3);
  (Cos 0x1.921fb54442d18p+0, 0x1.1a62633145c07p-54);
  (Cos 0x1.e28c731eb6950p+0, (-0x1.3c6ef372fe94ep-2));
  (Cos 0x1.197c987c952c4p+1, (-0x1.2cf2304755a5dp-1));
  (Cos 0x1.41b2f769cf0e0p+1, (-0x1.9e3779b97f4a7p-1));
  (Cos 0x1.69e9565708efcp+1, (-0x1.e6f0e134454ffp-1));
  (Asin 0x1.4060b67a85373p-3, 0x1.41b2f769cf0dep-3);
  (Asin 0x1.4060b67a85374p-3, 0x1.41b2f769cf0dfp-3);
  (Asin 0x1.4060b67a85375p-3, 0x1.41b2f769cf0e0p-3);
  (Asin 0x1.4060b67a85376p-3, 0x1.41b2f769cf0e1p-3);
  (Asin 0x1.4060b67a85377p-3, 0x1.41b2f769cf0e2p-3);
  (Asin 0x1.3c6ef372fe94dp-2, 0x1.41b2f769cf0dep-2);
  (Asin 0x1.3c6ef372fe94ep-2, 0x1.41b2f769cf0dfp-2);
  (Asin 0x1.3c6ef372fe94fp-2, 0x1.41b2f769cf0e0p-2);
  (Asin 0x1.3c6ef372fe950p-2, 0x1.41b2f769cf0e1p-2);
  (Asin 0x1.3c6ef372fe951p-2, 0x1.41b2f769cf0e2p-2);
  (Asin 0x1.d0e2e2b44ddfep-2, 0x1.e28c731eb694dp-2);
  (Asin 0x1.d0e2e2b44ddffp-2, 0x1.e28c731eb694ep-2);
  (Asin 0x1.d0e2e2b44de00p-2, 0x1.e28c731eb694fp-2);
  (Asin 0x1.d0e2e2b44de01p-2, 0x1.e28c731eb6951p-2);
  (Asin 0x1.d0e2e2b44de02p-2, 0x1.e28c731eb6952p-2);
  (Asin 0x1.2cf2304755a5cp-1, 0x1.41b2f769cf0dep-1);
  (Asin 0x1.2cf2304755a5dp-1, 0x1.41b2f769cf0dfp-1);
  (Asin 0x1.2cf2304755a5ep-1, 0x1.41b2f769cf0e0p-1);
  (Asin 0x1.2cf2304755a5fp-1, 0x1.41b2f769cf0e2p-1);
  (Asin 0x1.2cf2304755a60p-1, 0x1.41b2f769cf0e3p-1);
  (Asin 0x1.6a09e667f3bcap-1, 0x1.921fb54442d15p-1);
  (Asin 0x1.6a09e667f3bcbp-1, 0x1.921fb54442d16p-1);
  (Asin 0x1.6a09e667f3bccp-1, 0x1.921fb54442d17p-1);
  (Asin 0x1.6a09e667f3bcdp-1, 0x1.921fb54442d19p-1);
  (Asin 0x1.6a09e667f3bcep-1, 0x1.921fb54442d1ap-1);
  (Asin 0x1.9e3779b97f4a6p-1, 0x1.e28c731eb694dp-1);
  (Asin 0x1.9e3779b97f4a7p-1, 0x1.e28c731eb694fp-1);
  (Asin 0x1.9e3779b97f4a8p-1, 0x1.e28c731eb6951p-1);
  (Asin 0x1.9e3779b97f4a9p-1, 0x1.e28c731eb6952p-1);
  (Asin 0x1.9e3779b97f4aap-1, 0x1.e28c731eb6954p-1);
  (Asin 0x1.c83201d3d2c6ap-1, 0x1.197c987c952c1p+0);
  (Asin 0x1.c83201d3d2c6bp-1, 0x1.197c987c952c2p+0);
  (Asin 0x1.c83201d3d2c6cp-1, 0x1.197c987c952c3p+0);
  (Asin 0x1.c83201d3d2c6dp-1, 0x1.197c987c952c5p+0);
  (Asin 0x1.c83201d3d2c6ep-1, 0x1.197c987c952c6p+0);
  (Asin 0x1.e6f0e134454fdp-1, 0x1.41b2f769cf0dcp+0);
  (Asin 0x1.e6f0e134454fep-1, 0x1.41b2f769cf0dep+0);
  (Asin 0x1.e6f0e134454ffp-1, 0x1.41b2f769cf0e0p+0);
  (Asin 0x1.e6f0e13445500p-1, 0x1.41b2f769cf0e1p+0);
  (Asin 0x1.e6f0e13445501p-1, 0x1.41b2f769cf0e3p+0);
  (Asin 0x1.f9b24942fe45ap-1, 0x1.69e9565708ef7p+0);
  (Asin 0x1.f9b24942fe45bp-1, 0x1.69e9565708efap+0);
  (Asin 0x1.f9b24942fe45cp-1, 0x1.69e9565708efep+0);
  (Asin 0x1.f9b24942fe45dp-1, 0x1.69e9565708f01p+0);
  (Asin 0x1.f9b24942fe45ep-1, 0x1.69e9565708f04p+0);
  (Acos (-0x1.e6f0e13445500p-1), 0x1.69e9565708efdp+1);
  (Acos (-0x1.e6f0e134454fep-1), 0x1.69e9565708efbp+1);
  (Acos (-0x1.e6f0e134454fcp-1), 0x1.69e9565708efap+1);
  (Acos (-0x1.9e3779b97f4a8p-1), 0x1.41b2f769cf0e0p+1);
  (Acos (-0x1.9e3779b97f4a6p-1), 0x1.41b2f769cf0dfp+1);
  (Acos (-0x1.9e3779b97f4a4p-1), 0x1.41b2f769cf0dfp+1);
  (Acos (-0x1.2cf2304755a60p-1), 0x1.197c987c952c5p+1);
  (Acos (-0x1.2cf2304755a5ep-1), 0x1.197c987c952c4p+1);
  (Acos (-0x1.2cf2304755a5cp-1), 0x1.197c987c952c4p+1);
  (Acos (-0x1.3c6ef372fe950p-2), 0x1.e28c731eb6950p+0);
  (Acos (-0x1.3c6ef372fe94cp-2), 0x1.e28c731eb694fp+0);
  (Acos 0x1.0000000000000p-53, 0x1.921fb54442d18p+0);
  (Acos 0x1.4060b67a85374p-3, 0x1.69e9565708efcp+0);
  (Acos 0x1.4060b67a85378p-3, 0x1.69e9565708efcp+0);
  (Acos 0x1.3c6ef372fe94ep-2, 0x1.41b2f769cf0e1p+0);
  (Acos 0x1.3c6ef372fe950p-2, 0x1.41b2f769cf0e0p+0);
  (Acos 0x1.3c6ef372fe952p-2, 0x1.41b2f769cf0e0p+0);
  (Acos 0x1.d0e2e2b44de00p-2, 0x1.197c987c952c4p+0);
  (Acos 0x1.d0e2e2b44de02p-2, 0x1.197c987c952c4p+0);
  (Acos 0x1.d0e2e2b44de04p-2, 0x1.197c987c952c3p+0);
  (Acos 0x1.2cf2304755a5cp-1, 0x1.e28c731eb6953p-1);
  (Acos 0x1.2cf2304755a5dp-1, 0x1.e28c731eb6951p-1);
  (Acos 0x1.2cf2304755a5ep-1, 0x1.e28c731eb6950p-1);
  (Acos 0x1.2cf2304755a5fp-1, 0x1.e28c731eb694fp-1);
  (Acos 0x1.2cf2304755a60p-1, 0x1.e28c731eb694ep-1);
  (Acos 0x1.6a09e667f3bcbp-1, 0x1.921fb54442d1ap-1);
  (Acos 0x1.6a09e667f3bccp-1, 0x1.921fb54442d19p-1);
  (Acos 0x1.6a09e667f3bcdp-1, 0x1.921fb54442d18p-1);
  (Acos 0x1.6a09e667f3bcep-1, 0x1.921fb54442d16p-1);
  (Acos 0x1.6a09e667f3bcfp-1, 0x1.921fb54442d15p-1);
  (Acos 0x1.9e3779b97f4a6p-1, 0x1.41b2f769cf0e3p-1);
  (Acos 0x1.9e3779b97f4a7p-1, 0x1.41b2f769cf0e2p-1);
  (Acos 0x1.9e3779b97f4a8p-1, 0x1.41b2f769cf0e0p-1);
  (Acos 0x1.9e3779b97f4a9p-1, 0x1.41b2f769cf0dep-1);
  (Acos 0x1.9e3779b97f4aap-1, 0x1.41b2f769cf0dcp-1);
  (Acos 0x1.c83201d3d2c6bp-1, 0x1.e28c731eb6958p-2);
  (Acos 0x1.c83201d3d2c6cp-1, 0x1.e28c731eb6953p-2);
  (Acos 0x1.c83201d3d2c6dp-1, 0x1.e28c731eb694fp-2);
  (Acos 0x1.c83201d3d2c6ep-1, 0x1.e28c731eb694ap-2);
  (Acos 0x1.c83201d3d2c6fp-1, 0x1.e28c731eb6946p-2);
  (Acos 0x1.e6f0e134454fdp-1, 0x1.41b2f769cf0f0p-2);
  (Acos 0x1.e6f0e134454fep-1, 0x1.41b2f769cf0e9p-2);
  (Acos 0x1.e6f0e134454ffp-1, 0x1.41b2f769cf0e3p-2);
  (Acos 0x1.e6f0e13445500p-1, 0x1.41b2f769cf0dcp-2);
  (Acos 0x1.e6f0e13445501p-1, 0x1.41b2f769cf0d6p-2);
  (Acos 0x1.f9b24942fe45ap-1, 0x1.41b2f769cf109p-3);
  (Acos 0x1.f9b24942fe45bp-1, 0x1.41b2f769cf0f0p-3);
  (Acos 0x1.f9b24942fe45cp-1, 0x1.41b2f769cf0d6p-3);
  (Acos 0x1.f9b24942fe45dp-1, 0x1.41b2f769cf0bcp-3);
  (Acos 0x1.f9b24942fe45ep-1, 0x1.41b2f769cf0a3p-3);
  (Cbrt 0x0.0p+0, 0x0.0p+0);
  (Cbrt 0x1.0624dd2f1a9fdp-10, 0x1.999999999999ap-4);
  (Cbrt 0x1.0624dd2f1aa00p-10, 0x1.999999999999cp-4);
  (Cbrt 0x1.0624dd2f1a9fdp-7, 0x1.999999999999ap-3);
  (Cbrt 0x1.0624dd2f1aa00p-7, 0x1.999999999999cp-3);
  (Cbrt 0x1.ba5e353f7ced9p-6, 0x1.3333333333333p-2);
  (Cbrt 0x1.ba5e353f7cee0p-6, 0x1.3333333333335p-2);
  (Cbrt 0x1.0624dd2f1a9fdp-4, 0x1.999999999999ap-2);
  (Cbrt 0x1.0624dd2f1aa00p-4, 0x1.999999999999cp-2);
  (Cbrt 0x1.0000000000000p-3, 0x1.0000000000000p-1);
  (Cbrt 0x1.ba5e353f7ced8p-3, 0x1.3333333333333p-1);
  (Cbrt 0x1.ba5e353f7ced9p-3, 0x1.3333333333333p-1);
  (Cbrt 0x1.ba5e353f7cee0p-3, 0x1.3333333333335p-1);
  (Cbrt 0x1.5f3b645a1cabfp-2, 0x1.6666666666666p-1);
  (Cbrt 0x1.5f3b645a1cac0p-2, 0x1.6666666666666p-1);
  (Cbrt 0x1.0624dd2f1a9fcp-1, 0x1.999999999999ap-1);
  (Cbrt 0x1.0624dd2f1a9fdp-1, 0x1.999999999999ap-1);
  (Cbrt 0x1.753f7ced91688p-1, 0x1.ccccccccccccdp-1);
  (Cbrt 0x1.0000000000000p+0, 0x1.0000000000000p+0);
  (Log2 0x1.ffffffffffffep-10, (-0x1.2000000000000p+3));
  (Log2 0x1.fffffffffffffp-10, (-0x1.2000000000000p+3));
  (Log2 0x1.0000000000000p-9, (-0x1.2000000000000p+3));
  (Log2 0x1.0000000000001p-9, (-0x1.2000000000000p+3));
  (Log2 0x1.0000000000002p-9, (-0x1.2000000000000p+3));
  (Log2 0x1.ffffffffffffep-9, (-0x1.0000000000000p+3));
  (Log2 0x1.fffffffffffffp-9, (-0x1.0000000000000p+3));
  (Log2 0x1.0000000000000p-8, (-0x1.0000000000000p+3));
  (Log2 0x1.0000000000001p-8, (-0x1.0000000000000p+3));
  (Log2 0x1.0000000000002p-8, (-0x1.fffffffffffffp+2));
  (Log2 0x1.ffffffffffffep-8, (-0x1.c000000000000p+2));
  (Log2 0x1.fffffffffffffp-8, (-0x1.c000000000000p+2));
  (Log2 0x1.0000000000000p-7, (-0x1.c000000000000p+2));
  (Log2 0x1.0000000000001p-7, (-0x1.c000000000000p+2));
  (Log2 0x1.0000000000002p-7, (-0x1.bffffffffffffp+2));
  (Log2 0x1.ffffffffffffep-7, (-0x1.8000000000000p+2));
  (Log2 0x1.fffffffffffffp-7, (-0x1.8000000000000p+2));
  (Log2 0x1.0000000000000p-6, (-0x1.8000000000000p+2));
  (Log2 0x1.0000000000001p-6, (-0x1.8000000000000p+2));
  (Log2 0x1.0000000000002p-6, (-0x1.7ffffffffffffp+2));
  (Log2 0x1.ffffffffffffep-6, (-0x1.4000000000000p+2));
  (Log2 0x1.fffffffffffffp-6, (-0x1.4000000000000p+2));
  (Log2 0x1.0000000000000p-5, (-0x1.4000000000000p+2));
  (Log2 0x1.0000000000001p-5, (-0x1.4000000000000p+2));
  (Log2 0x1.0000000000002p-5, (-0x1.3ffffffffffffp+2));
  (Log2 0x1.ffffffffffffep-5, (-0x1.0000000000000p+2));
  (Log2 0x1.fffffffffffffp-5, (-0x1.0000000000000p+2));
  (Log2 0x1.0000000000000p-4, (-0x1.0000000000000p+2));
  (Log2 0x1.0000000000001p-4, (-0x1.fffffffffffffp+1));
  (Log2 0x1.0000000000002p-4, (-0x1.fffffffffffffp+1));
  (Log2 0x1.ffffffffffffep-4, (-0x1.8000000000001p+1));
  (Log2 0x1.fffffffffffffp-4, (-0x1.8000000000000p+1));
  (Log2 0x1.0000000000000p-3, (-0x1.8000000000000p+1));
  (Log2 0x1.0000000000001p-3, (-0x1.7ffffffffffffp+1));
  (Log2 0x1.0000000000002p-3, (-0x1.7ffffffffffffp+1));
  (Log2 0x1.ffffffffffffep-3, (-0x1.0000000000001p+1));
  (Log2 0x1.fffffffffffffp-3, (-0x1.0000000000000p+1));
  (Log2 0x1.0000000000000p-2, (-0x1.0000000000000p+1));
  (Log2 0x1.0000000000001p-2, (-0x1.fffffffffffffp+0));
  (Log2 0x1.0000000000002p-2, (-0x1.ffffffffffffdp+0));
  (Log2 0x1.ffffffffffffep-2, (-0x1.0000000000001p+0));
  (Log2 0x1.fffffffffffffp-2, (-0x1.0000000000001p+0));
  (Log2 0x1.0000000000000p-1, (-0x1.0000000000000p+0));
  (Log2 0x1.0000000000001p-1, (-0x1.ffffffffffffdp-1));
  (Log2 0x1.0000000000002p-1, (-0x1.ffffffffffffap-1));
  (Log2 0x1.ffffffffffffcp-1, (-0x1.71547652b8300p-51));
  (Log2 0x1.ffffffffffffep-1, (-0x1.71547652b82ffp-52));
  (Log2 0x1.0000000000000p+0, 0x0.0p+0);
  (Powf 0x0.0p+0 0x1.999999999999ap-3, 0x0.0p+0);
  (Powf 0x0.0p+0 0x1.0000000000000p-2, 0x0.0p+0);
  (Powf 0x1.4f8b588e30000p-17 0x1.999999999999ap-3, 0x1.9999999997ffap-4);
  (Powf 0x1.4f8b588e368f3p-17 0x1.999999999999ap-3, 0x1.9999999999999p-4);
  (Powf 0x1.a36e2eb1c4000p-14 0x1.0000000000000p-2, 0x1.99999999998d3p-4);
  (Powf 0x1.a36e2eb1c432fp-14 0x1.0000000000000p-2, 0x1.999999999999ap-4);
  (Powf 0x1.4f8b588e36800p-12 0x1.999999999999ap-3, 0x1.999999999995ep-3);
  (Powf 0x1.4f8b588e368f3p-12 0x1.999999999999ap-3, 0x1.999999999999ap-3);
  (Powf 0x1.4f8b588e37000p-12 0x1.999999999999ap-3, 0x1.9999999999b52p-3);
  (Powf 0x1.a36e2eb1c432fp-10 0x1.0000000000000p-2, 0x1.999999999999ap-3);
  (Powf 0x1.a36e2eb1c4400p-10 0x1.0000000000000p-2, 0x1.99999999999cdp-3);
  (Powf 0x1.3e81450efdc9cp-9 0x1.999999999999ap-3, 0x1.3333333333333p-2);
  (Powf 0x1.3e81450efdd00p-9 0x1.999999999999ap-3, 0x1.3333333333346p-2);
  (Powf 0x1.096bb98c7e280p-7 0x1.0000000000000p-2, 0x1.3333333333333p-2);
  (Powf 0x1.096bb98c7e282p-7 0x1.0000000000000p-2, 0x1.3333333333333p-2);
  (Powf 0x1.4f8b588e368f3p-7 0x1.999999999999ap-3, 0x1.999999999999ap-2);
  (Powf 0x1.4f8b588e36900p-7 0x1.999999999999ap-3, 0x1.999999999999dp-2);
  (Powf 0x1.a36e2eb1c432fp-6 0x1.0000000000000p-2, 0x1.999999999999ap-2);
  (Powf 0x1.a36e2eb1c4340p-6 0x1.0000000000000p-2, 0x1.999999999999ep-2);
  (Powf 0x1.0000000000000p-5 0x1.999999999999ap-3, 0x1.0000000000000p-1);
  (Powf 0x1.0000000000000p-4 0x1.0000000000000p-2, 0x1.0000000000000p-1);
  (Powf 0x1.3e81450efdc9cp-4 0x1.999999999999ap-3, 0x1.3333333333333p-1);
  (Powf 0x1.3e81450efdca0p-4 0x1.999999999999ap-3, 0x1.3333333333334p-1);
  (Powf 0x1.096bb98c7e280p-3 0x1.0000000000000p-2, 0x1.3333333333333p-1);
  (Powf 0x1.096bb98c7e282p-3 0x1.0000000000000p-2, 0x1.3333333333333p-1);
  (Powf 0x1.096bb98c7e288p-3 0x1.0000000000000p-2, 0x1.3333333333335p-1);
  (Powf 0x1.5835158b827f8p-3 0x1.999999999999ap-3, 0x1.6666666666666p-1);
  (Powf 0x1.ebb98c7e2823ep-3 0x1.0000000000000p-2, 0x1.6666666666666p-1);
  (Powf 0x1.ebb98c7e28240p-3 0x1.0000000000000p-2, 0x1.6666666666666p-1);
  (Powf 0x1.4f8b588e368f3p-2 0x1.999999999999ap-3, 0x1.999999999999ap-1);
  (Powf 0x1.4f8b588e368f4p-2 0x1.999999999999ap-3, 0x1.999999999999ap-1);
  (Powf 0x1.a36e2eb1c432fp-2 0x1.0000000000000p-2, 0x1.999999999999ap-1);
  (Powf 0x1.a36e2eb1c4330p-2 0x1.0000000000000p-2, 0x1.999999999999ap-1);
  (Powf 0x1.2e54b48d3ae6ap-1 0x1.999999999999ap-3, 0x1.ccccccccccccdp-1);
  (Powf 0x1.4fec56d5cfaaep-1 0x1.0000000000000p-2, 0x1.ccccccccccccdp-1);
  (Powf 0x1.0000000000000p+0 0x1.999999999999ap-3, 0x1.0000000000000p+0);
  (Powf 0x1.0000000000000p+0 0x1.0000000000000p-2, 0x1.0000000000000p+0);
  (Powf 0x1.0000000000000p+1 (-0x1.2000000000000p+3), 0x1.0000000000000p-9);
  (Powf 0x1.0000000000000p+1 (-0x1.0000000000000p+3), 0x1.0000000000000p-8);
  (Powf 0x1.0000000000000p+1 (-0x1.c000000000000p+2), 0x1.0000000000000p-7);
  (Powf 0x1.0000000000000p+1 (-0x1.8000000000000p+2), 0x1.0000000000000p-6);
  (Powf 0x1.0000000000000p+1 (-0x1.4000000000000p+2), 0x1.0000000000000p-5);
  (Powf 0x1.0000000000000p+1 (-0x1.0000000000000p+2), 0x1.0000000000000p-4);
  (Powf 0x1.0000000000000p+1 (-0x1.8000000000000p+1), 0x1.0000000000000p-3);
  (Powf 0x1.0000000000000p+1 (-0x1.0000000000000p+1), 0x1.0000000000000p-2);
  (Powf 0x1.0000000000000p+1 (-0x1.0000000000000p+0), 0x1.0000000000000p-1);
  (Powf 0x1.0000000000000p+1 0x0.0p+0, 0x1.0000000000000p+0)
].

(** A libm that is correctly rounded at all the listed calls (and returns
    NaN elsewhere): the assumptions above are satisfiable. *)
Definition call_eqb (c d : libm_call) : bool :=
  match c, d with
  | Sin a, Sin b | Cos a, Cos b | Asin a, Asin b | Acos a, Acos b
  | Cbrt a, Cbrt b | Log2 a, Log2 b => Leibniz.eqb a b
  | Powf a b, Powf a' b' => Leibniz.eqb a a' && Leibniz.eqb b b'
  | _, _ => false
  end.

Fixpoint lookup_call (c : libm_call) (pts : list (libm_call * float)) : float :=
  match pts with
  | [] => nan
  | (d, r) :: pts' => if call_eqb c d then r else lookup_call c pts'
  end.

Definition listed_points : list (libm_call * float) :=
  boundary_points ++ midpoint_points ++ round_trip_points.

Definition correctly_rounded_libm : Libm := {|
  sin x := lookup_call (Sin x) listed_points;
  cos x := lookup_call (Cos x) listed_points;
  asin x := lookup_call (Asin x) listed_points;
  acos x := lookup_call (Acos x) listed_points;
  cbrt x := lookup_call (Cbrt x) listed_points;
  log2 x := lookup_call (Log2 x) listed_points;
  powf x y := lookup_call (Powf x y) listed_points
|}.

(** ** Evaluating a curve under the libm assumptions *)

(** The position of call [c] in a point list. *)
Fixpoint index_of (c : libm_call) (pts : list (libm_call * float)) : nat :=
  match pts with
  | [] => O
  | (d, _) :: pts' => if call_eqb c d then O else S (index_of c pts')
  end.

(** Prove [In (c, ?r) pts] by computing the position of [c] in [pts]. *)
Ltac find_point :=
  lazymatch goal with
  | |- In (?c, _) ?pts =>
      let n := eval vm_compute in (index_of c pts) in
      let x := eval vm_compute in (nth n pts (c, nan)) in
      exact (nth_error_In pts n (eq_refl : nth_error pts n = Some x))
  end.

(** Replace the libm call [c] of the goal by its listed result: [H]
    states [libm_exact_at pts]. *)
Ltac use_exact_point H c :=
  let E := fresh "E" in
  epose proof (proj1 (Forall_forall _ _) H (c, _) ltac:(find_point)) as E;
  cbv beta iota delta [eval_call] in E; rewrite E; clear E.

(** Split on the five results libm may return at call [c]: [H] states
    [libm_within_two_ulps_at pts]. *)
Ltac use_close_point H c :=
  let E := fresh "E" in
  epose proof (proj1 (Forall_forall _ _) H (c, _) ltac:(find_point)) as E;
  cbv beta iota delta [eval_call In within_two_ulps] in E;
  destruct E as [E|[E|[E|[E|[E|[]]]]]]; rewrite <- E; clear E.

Ltac libm_call_of k :=
  match goal with
  | |- context [sin ?a] => k (Sin a)
  | |- context [cos ?a] => k (Cos a)
  | |- context [asin ?a] => k (Asin a)
  | |- context [acos ?a] => k (Acos a)
  | |- context [cbrt ?a] => k (Cbrt a)
  | |- context [log2 ?a] => k (Log2 a)
  | |- context [powf ?a ?b] => k (Powf a b)
  end.

(** Compute the goal, resolving every libm call through [H]. *)
Ltac eval_code := cbv -[sin cos asin acos cbrt log2 powf].

Ltac eval_exact H :=
  eval_code; repeat (libm_call_of ltac:(use_exact_point H); eval_code).

Ltac eval_close H :=
  eval_code; repeat (libm_call_of ltac:(use_close_point H); eval_code).

(** ** The unit tests of [easing.rs] *)

(** The two assertion macros of the tests, on a function that may panic:
    [assert_eq!(f(x), y)] compares with [==];
    [assert_approx_eq!(f(x), y)] checks [(f(x) - y).abs() < 1.0e-6]. *)
Inductive assertion : Type :=
  | AssertEq (f : float -> option float) (x y : float)
  | AssertApproxEq (f : float -> option float) (x y : float).

(** A [#[test]] function: its assertions in order, and whether it carries
    [#[should_panic]]. *)
Record test : Type := { should_panic : bool; body : list assertion }.

(** An assertion: [None] when the call panics, otherwise whether it holds. *)
Definition check (a : assertion) : option bool :=
  match a with
  | AssertEq f x y => option_map (fun v => v == y) (f x)
  | AssertApproxEq f x y => option_map (fun v => abs (v - y) < 1.0e-6) (f x)
  end.

(** Running a test body: [true] when it returns, [false] when it panics
    (in a called function or in a failed assertion). *)
Fixpoint run (asserts : list assertion) : bool :=
  match asserts with
  | [] => true
  | a :: rest =>
      match check a with
      | Some true => run rest
      | _ => false
      end
  end.

(** The test harness verdict: a [#[should_panic]] test passes when its body
    panics, any other test when its body returns. *)
Definition passes (t : test) : bool :=
  if should_panic t then negb (run (body t)) else run (body t).

Section Tests.
Context {L : Libm}.

Definition test_sine_in : test := {|
  should_panic := false;
  body := [
    AssertEq (total sine_in) 0.0 0.0;
    AssertApproxEq (total sine_in) 0.2 0.048943;
    AssertApproxEq (total sine_in) 0.4 0.190983;
    AssertApproxEq (total sine_in) 0.5 0.292893;
    AssertApproxEq (total sine_in) 0.6 0.412214;
    AssertApproxEq (total sine_in) 0.8 0.690983;
    AssertEq (total sine_in) 1.0 1.0 ]
|}.

Definition test_inverse_sine_in : test := {|
  should_panic := false;
  body := [
    AssertEq (total inverse_sine_in) 0.0 0.0;
    AssertApproxEq (total inverse_sine_in) 0.048943 0.2;
    AssertApproxEq (total inverse_sine_in) 0.190983 0.4;
    AssertApproxEq (total inverse_sine_in) 0.292893 0.5;
    AssertApproxEq (total inverse_sine_in) 0.412214 0.6;
    AssertApproxEq (total inverse_sine_in) 0.690983 0.8;
    AssertEq (total inverse_sine_in) 1.0 1.0 ]
|}.

Definition test_sine_out : test := {|
  should_panic := false;
  body := [
    AssertEq (total sine_out) 0.0 0.0;
    AssertApproxEq (total sine_out) 0.2 0.309016;
    AssertApproxEq (total sine_out) 0.4 0.587785;
    AssertApproxEq (total sine_out) 0.5 0.707106;
    AssertApproxEq (total sine_out) 0.6 0.809016;
    AssertApproxEq (total sine_out) 0.8 0.951056;
    AssertEq (total sine_out) 1.0 1.0 ]
|}.

Definition test_inverse_sine_out : test := {|
  should_panic := false;
  body := [
    AssertEq (total inverse_sine_out) 0.0 0.0;
    AssertApproxEq (total inverse_sine_out) 0.309016 0.2;
    AssertApproxEq (total inverse_sine_out) 0.587785 0.4;
    AssertApproxEq (total inverse_sine_out) 0.707106 0.5;
    AssertApproxEq (total inverse_sine_out) 0.809016 0.599998;
    AssertApproxEq (total inverse_sine_out) 0.951056 0.799998;
    AssertEq (total inverse_sine_out) 1.0 1.0 ]
|}.

Definition test_sine_in_out : test := {|
  should_panic := false;
  body := [
    AssertEq (total sine_in_out) 0.0 0.0;
    AssertApproxEq (total sine_in_out) 0.2 0.095491;
    AssertApproxEq (total sine_in_out) 0.4 0.345491;
    AssertApproxEq (total sine_in_out) 0.5 0.5;
    AssertApproxEq (total sine_in_out) 0.6 0.654508;
    AssertApproxEq (total sine_in_out) 0.8 0.904508;
    AssertEq (total sine_in_out) 1.0 1.0 ]
|}.

Definition test_inverse_sine_in_out : test := {|
  should_panic := false;
  body := [
    AssertEq (total inverse_sine_in_out) 0.0 0.0;
    AssertApproxEq (total inverse_sine_in_out) 0.095491 0.2;
    AssertApproxEq (total inverse_sine_in_out) 0.345491 0.4;
    AssertApproxEq (total inverse_sine_in_out) 0.5 0.5;
    AssertApproxEq (total inverse_sine_in_out) 0.654508 0.6;
    AssertApproxEq (total inverse_sine_in_out) 0.904508 0.8;
    AssertEq (total inverse_sine_in_out) 1.0 1.0 ]
|}.

Definition test_quad_in : test := {|
  should_panic := false;
  body := [
    AssertEq (total quad_in) 0.0 0.0;
    AssertApproxEq (total quad_in) 0.2 0.04;
    AssertApproxEq (total quad_in) 0.4 0.16;
    AssertApproxEq (total quad_in) 0.5 0.25;
    AssertApproxEq (total quad_in) 0.6 0.36;
    AssertApproxEq (total quad_in) 0.8 0.64;
    AssertEq (total quad_in) 1.0 1.0 ]
|}.

Definition test_inverse_quad_in : test := {|
  should_panic := false;
  body := [
    AssertEq (total inverse_quad_in) 0.0 0.0;
    AssertApproxEq (total inverse_quad_in) 0.04 0.2;
    AssertApproxEq (total inverse_quad_in) 0.16 0.4;
    AssertApproxEq (total inverse_quad_in) 0.25 0.5;
    AssertApproxEq (total inverse_quad_in) 0.36 0.6;
    AssertApproxEq (total inverse_quad_in) 0.64 0.8;
    AssertEq (total inverse_quad_in) 1.0 1.0 ]
|}.

Definition test_quad_out : test := {|
  should_panic := false;
  body := [
    AssertEq (total quad_out) 0.0 0.0;
    AssertApproxEq (total quad_out) 0.2 0.36;
    AssertApproxEq (total quad_out) 0.4 0.64;
    AssertApproxEq (total quad_out) 0.5 0.75;
    AssertApproxEq (total quad_out) 0.6 0.84;
    AssertApproxEq (total quad_out) 0.8 0.96;
    AssertEq (total quad_out) 1.0 1.0 ]
|}.

Definition test_inverse_quad_out : test := {|
  should_panic := false;
  body := [
    AssertEq (total inverse_quad_out) 0.0 0.0;
    AssertApproxEq (total inverse_quad_out) 0.36 0.2;
    AssertApproxEq (total inverse_quad_out) 0.64 0.4;
    AssertApproxEq (total inverse_quad_out) 0.75 0.5;
    AssertApproxEq (total inverse_quad_out) 0.84 0.6;
    AssertApproxEq (total inverse_quad_out) 0.96 0.8;
    AssertEq (total inverse_quad_out) 1.0 1.0 ]
|}.

Definition test_quad_in_out : test := {|
  should_panic := false;
  body := [
    AssertEq (total quad_in_out) 0.0 0.0;
    AssertApproxEq (total quad_in_out) 0.2 0.08;
    AssertApproxEq (total quad_in_out) 0.4 0.32;
    AssertApproxEq (total quad_in_out) 0.5 0.5;
    AssertApproxEq (total quad_in_out) 0.6 0.68;
    AssertApproxEq (total quad_in_out) 0.8 0.92;
    AssertEq (total quad_in_out) 1.0 1.0 ]
|}.

Definition test_inverse_quad_in_out : test := {|
  should_panic := false;
  body := [
    AssertEq (total inverse_quad_in_out) 0.0 0.0;
    AssertApproxEq (total inverse_quad_in_out) 0.08 0.2;
    AssertApproxEq (total inverse_quad_in_out) 0.32 0.4;
    AssertApproxEq (total inverse_quad_in_out) 0.5 0.5;
    AssertApproxEq (total inverse_quad_in_out) 0.68 0.6;
    AssertApproxEq (total inverse_quad_in_out) 0.92 0.8;
    AssertEq (total inverse_quad_in_out) 1.0 1.0 ]
|}.

Definition test_cubic_in : test := {|
  should_panic := false;
  body := [
    AssertEq (total cubic_in) 0.0 0.0;
    AssertApproxEq (total cubic_in) 0.2 0.008;
    AssertApproxEq (total cubic_in) 0.4 0.064;
    AssertApproxEq (total cubic_in) 0.5 0.125;
    AssertApproxEq (total cubic_in) 0.6 0.216;
    AssertApproxEq (total cubic_in) 0.8 0.512;
    AssertEq (total cubic_in) 1.0 1.0 ]
|}.

Definition test_inverse_cubic_in : test := {|
  should_panic := false;
  body := [
    AssertEq (total inverse_cubic_in) 0.0 0.0;
    AssertApproxEq (total inverse_cubic_in) 0.008 0.2;
    AssertApproxEq (total inverse_cubic_in) 0.064 0.4;
    AssertApproxEq (total inverse_cubic_in) 0.125 0.5;
    AssertApproxEq (total inverse_cubic_in) 0.216 0.6;
    AssertApproxEq (total inverse_cubic_in) 0.512 0.8;
    AssertEq (total inverse_cubic_in) 1.0 1.0 ]
|}.

Definition test_cubic_out : test := {|
  should_panic := false;
  body := [
    AssertEq (total cubic_out) 0.0 0.0;
    AssertApproxEq (total cubic_out) 0.2 0.488;
    AssertApproxEq (total cubic_out) 0.4 0.784;
    AssertApproxEq (total cubic_out) 0.5 0.875;
    AssertApproxEq (total cubic_out) 0.6 0.936;
    AssertApproxEq (total cubic_out) 0.8 0.992;
    AssertEq (total cubic_out) 1.0 1.0 ]
|}.

Definition test_inverse_cubic_out : test := {|
  should_panic := false;
  body := [
    AssertEq (total inverse_cubic_out) 0.0 0.0;
    AssertApproxEq (total inverse_cubic_out) 0.488 0.2;
    AssertApproxEq (total inverse_cubic_out) 0.784 0.4;
    AssertApproxEq (total inverse_cubic_out) 0.875 0.5;
    AssertApproxEq (total inverse_cubic_out) 0.936 0.6;
    AssertApproxEq (total inverse_cubic_out) 0.992 0.8;
    AssertEq (total inverse_cubic_out) 1.0 1.0 ]
|}.

Definition test_cubic_in_out : test := {|
  should_panic := false;
  body := [
    AssertEq (total cubic_in_out) 0.0 0.0;
    AssertApproxEq (total cubic_in_out) 0.2 0.032;
    AssertApproxEq (total cubic_in_out) 0.4 0.256;
    AssertApproxEq (total cubic_in_out) 0.5 0.5;
    AssertApproxEq (total cubic_in_out) 0.6 0.744;
    AssertApproxEq (total cubic_in_out) 0.8 0.968;
    AssertEq (total cubic_in_out) 1.0 1.0 ]
|}.

Definition test_inverse_cubic_in_out : test := {|
  should_panic := false;
  body := [
    AssertEq (total inverse_cubic_in_out) 0.0 0.0;
    AssertApproxEq (total inverse_cubic_in_out) 0.032 0.2;
    AssertApproxEq (total inverse_cubic_in_out) 0.256 0.4;
    AssertApproxEq (total inverse_cubic_in_out) 0.5 0.5;
    AssertApproxEq (total inverse_cubic_in_out) 0.744 0.6;
    AssertApproxEq (total inverse_cubic_in_out) 0.968 0.8;
    AssertEq (total inverse_cubic_in_out) 1.0 1.0 ]
|}.

Definition test_quart_in : test := {|
  should_panic := false;
  body := [
    AssertEq (total quart_in) 0.0 0.0;
    AssertApproxEq (total quart_in) 0.2 0.0016;
    AssertApproxEq (total quart_in) 0.4 0.0256;
    AssertApproxEq (total quart_in) 0.5 0.0625;
    AssertApproxEq (total quart_in) 0.6 0.1296;
    AssertApproxEq (total quart_in) 0.8 0.4096;
    AssertEq (total quart_in) 1.0 1.0 ]
|}.

Definition test_inverse_quart_in : test := {|
  should_panic := false;
  body := [
    AssertEq (total inverse_quart_in) 0.0 0.0;
    AssertApproxEq (total inverse_quart_in) 0.0016 0.2;
    AssertApproxEq (total inverse_quart_in) 0.0256 0.4;
    AssertApproxEq (total inverse_quart_in) 0.0625 0.5;
    AssertApproxEq (total inverse_quart_in) 0.1296 0.6;
    AssertApproxEq (total inverse_quart_in) 0.4096 0.8;
    AssertEq (total inverse_quart_in) 1.0 1.0 ]
|}.

Definition test_quart_out : test := {|
  should_panic := false;
  body := [
    AssertEq (total quart_out) 0.0 0.0;
    AssertApproxEq (total quart_out) 0.2 0.5904;
    AssertApproxEq (total quart_out) 0.4 0.8704;
    AssertApproxEq (total quart_out) 0.5 0.9375;
    AssertApproxEq (total quart_out) 0.6 0.9744;
    AssertApproxEq (total quart_out) 0.8 0.9984;
    AssertEq (total quart_out) 1.0 1.0 ]
|}.

Definition test_inverse_quart_out : test := {|
  should_panic := false;
  body := [
    AssertEq (total inverse_quart_out) 0.0 0.0;
    AssertApproxEq (total inverse_quart_out) 0.5904 0.2;
    AssertApproxEq (total inverse_quart_out) 0.8704 0.4;
    AssertApproxEq (total inverse_quart_out) 0.9375 0.5;
    AssertApproxEq (total inverse_quart_out) 0.9744 0.6;
    AssertApproxEq (total inverse_quart_out) 0.9984 0.8;
    AssertEq (total inverse_quart_out) 1.0 1.0 ]
|}.

Definition test_quart_in_out : test := {|
  should_panic := false;
  body := [
    AssertEq (total quart_in_out) 0.0 0.0;
    AssertApproxEq (total quart_in_out) 0.2 0.0128;
    AssertApproxEq (total quart_in_out) 0.4 0.2048;
    AssertApproxEq (total quart_in_out) 0.5 0.5;
    AssertApproxEq (total quart_in_out) 0.6 0.7952;
    AssertApproxEq (total quart_in_out) 0.8 0.9872;
    AssertEq (total quart_in_out) 1.0 1.0 ]
|}.

Definition test_inverse_quart_in_out : test := {|
  should_panic := false;
  body := [
    AssertEq (total inverse_quart_in_out) 0.0 0.0;
    AssertApproxEq (total inverse_quart_in_out) 0.0128 0.2;
    AssertApproxEq (total inverse_quart_in_out) 0.2048 0.4;
    AssertApproxEq (total inverse_quart_in_out) 0.5 0.5;
    AssertApproxEq (total inverse_quart_in_out) 0.7952 0.6;
    AssertApproxEq (total inverse_quart_in_out) 0.9872 0.8;
    AssertEq (total inverse_quart_in_out) 1.0 1.0 ]
|}.

Definition test_quint_in : test := {|
  should_panic := false;
  body := [
    AssertEq (total quint_in) 0.0 0.0;
    AssertApproxEq (total quint_in) 0.2 0.00032;
    AssertApproxEq (total quint_in) 0.4 0.01024;
    AssertApproxEq (total quint_in) 0.5 0.03125;
    AssertApproxEq (total quint_in) 0.6 0.07776;
    AssertApproxEq (total quint_in) 0.8 0.32768;
    AssertEq (total quint_in) 1.0 1.0 ]
|}.

Definition test_inverse_quint_in : test := {|
  should_panic := false;
  body := [
    AssertEq (total inverse_quint_in) 0.0 0.0;
    AssertApproxEq (total inverse_quint_in) 0.00032 0.2;
    AssertApproxEq (total inverse_quint_in) 0.01024 0.4;
    AssertApproxEq (total inverse_quint_in) 0.03125 0.5;
    AssertApproxEq (total inverse_quint_in) 0.07776 0.6;
    AssertApproxEq (total inverse_quint_in) 0.32768 0.8;
    AssertEq (total inverse_quint_in) 1.0 1.0 ]
|}.

Definition test_quint_out : test := {|
  should_panic := false;
  body := [
    AssertEq (total quint_out) 0.0 0.0;
    AssertApproxEq (total quint_out) 0.2 0.67232;
    AssertApproxEq (total quint_out) 0.4 0.92224;
    AssertApproxEq (total quint_out) 0.5 0.96875;
    AssertApproxEq (total quint_out) 0.6 0.98976;
    AssertApproxEq (total quint_out) 0.8 0.99968;
    AssertEq (total quint_out) 1.0 1.0 ]
|}.

Definition test_inverse_quint_out : test := {|
  should_panic := false;
  body := [
    AssertEq (total inverse_quint_out) 0.0 0.0;
    AssertApproxEq (total inverse_quint_out) 0.67232 0.2;
    AssertApproxEq (total inverse_quint_out) 0.92224 0.4;
    AssertApproxEq (total inverse_quint_out) 0.96875 0.5;
    AssertApproxEq (total inverse_quint_out) 0.98976 0.6;
    AssertApproxEq (total inverse_quint_out) 0.99968 0.8;
    AssertEq (total inverse_quint_out) 1.0 1.0 ]
|}.

Definition test_quint_in_out : test := {|
  should_panic := false;
  body := [
    AssertEq (total quint_in_out) 0.0 0.0;
    AssertApproxEq (total quint_in_out) 0.2 0.00512;
    AssertApproxEq (total quint_in_out) 0.4 0.16384;
    AssertApproxEq (total quint_in_out) 0.5 0.5;
    AssertApproxEq (total quint_in_out) 0.6 0.83616;
    AssertApproxEq (total quint_in_out) 0.8 0.99488;
    AssertEq (total quint_in_out) 1.0 1.0 ]
|}.

Definition test_inverse_quint_in_out : test := {|
  should_panic := false;
  body := [
    AssertEq (total inverse_quint_in_out) 0.0 0.0;
    AssertApproxEq (total inverse_quint_in_out) 0.00512 0.2;
    AssertApproxEq (total inverse_quint_in_out) 0.16384 0.4;
    AssertApproxEq (total inverse_quint_in_out) 0.5 0.5;
    AssertApproxEq (total inverse_quint_in_out) 0.83616 0.6;
    AssertApproxEq (total inverse_quint_in_out) 0.99488 0.8;
    AssertEq (total inverse_quint_in_out) 1.0 1.0 ]
|}.

Definition test_expo_in : test := {|
  should_panic := false;
  body := [
    AssertEq (total expo_in) 0.0 0.0;
    AssertApproxEq (total expo_in) 0.2 0.003906;
    AssertApproxEq (total expo_in) 0.4 0.015625;
    AssertApproxEq (total expo_in) 0.5 0.03125;
    AssertApproxEq (total expo_in) 0.6 0.0625;
    AssertApproxEq (total expo_in) 0.8 0.25;
    AssertApproxEq (total expo_in) 0.9 0.5;
    AssertApproxEq (total expo_in) 0.95 0.707106;
    AssertApproxEq (total expo_in) 0.98 0.870550;
    AssertEq (total expo_in) 1.0 1.0 ]
|}.

Definition test_inverse_expo_in : test := {|
  should_panic := false;
  body := [
    AssertEq (total inverse_expo_in) 0.0 0.0;
    AssertApproxEq (total inverse_expo_in) 0.003906 0.199990;
    AssertApproxEq (total inverse_expo_in) 0.015625 0.4;
    AssertApproxEq (total inverse_expo_in) 0.03125 0.5;
    AssertApproxEq (total inverse_expo_in) 0.0625 0.6;
    AssertApproxEq (total inverse_expo_in) 0.25 0.8;
    AssertApproxEq (total inverse_expo_in) 0.5 0.9;
    AssertApproxEq (total inverse_expo_in) 0.707106 0.95;
    AssertApproxEq (total inverse_expo_in) 0.870550 0.98;
    AssertEq (total inverse_expo_in) 1.0 1.0 ]
|}.

Definition test_expo_out : test := {|
  should_panic := false;
  body := [
    AssertEq (total expo_out) 0.0 0.0;
    AssertApproxEq (total expo_out) 0.1 0.5;
    AssertApproxEq (total expo_out) 0.2 0.75;
    AssertApproxEq (total expo_out) 0.4 0.9375;
    AssertApproxEq (total expo_out) 0.5 0.96875;
    AssertApproxEq (total expo_out) 0.6 0.984375;
    AssertApproxEq (total expo_out) 0.8 0.996093;
    AssertApproxEq (total expo_out) 0.9 0.998046;
    AssertApproxEq (total expo_out) 0.95 0.998618;
    AssertApproxEq (total expo_out) 0.98 0.998878;
    AssertEq (total expo_out) 1.0 1.0 ]
|}.

Definition test_inverse_expo_out : test := {|
  should_panic := false;
  body := [
    AssertEq (total inverse_expo_out) 0.0 0.0;
    AssertApproxEq (total inverse_expo_out) 0.5 0.1;
    AssertApproxEq (total inverse_expo_out) 0.75 0.2;
    AssertApproxEq (total inverse_expo_out) 0.9375 0.4;
    AssertApproxEq (total inverse_expo_out) 0.96875 0.5;
    AssertApproxEq (total inverse_expo_out) 0.984375 0.6;
    AssertApproxEq (total inverse_expo_out) 0.996093 0.799972;
    AssertApproxEq (total inverse_expo_out) 0.998046 0.899935;
    AssertApproxEq (total inverse_expo_out) 0.998618 0.949902;
    AssertApproxEq (total inverse_expo_out) 0.998878 0.979971;
    AssertEq (total inverse_expo_out) 1.0 1.0 ]
|}.

Definition test_expo_in_out : test := {|
  should_panic := false;
  body := [
    AssertEq (total expo_in_out) 0.0 0.0;
    AssertApproxEq (total expo_in_out) 0.1 0.001953;
    AssertApproxEq (total expo_in_out) 0.12 0.002577;
    AssertApproxEq (total expo_in_out) 0.15 0.003906;
    AssertApproxEq (total expo_in_out) 0.2 0.007812;
    AssertApproxEq (total expo_in_out) 0.4 0.125;
    AssertApproxEq (total expo_in_out) 0.5 0.5;
    AssertApproxEq (total expo_in_out) 0.6 0.875;
    AssertApproxEq (total expo_in_out) 0.8 0.992187;
    AssertApproxEq (total expo_in_out) 0.9 0.998046;
    AssertApproxEq (total expo_in_out) 0.95 0.999023;
    AssertApproxEq (total expo_in_out) 0.98 0.999355;
    AssertEq (total expo_in_out) 1.0 1.0 ]
|}.

Definition test_inverse_expo_in_out : test := {|
  should_panic := false;
  body := [
    AssertEq (total inverse_expo_in_out) 0.0 0.0;
    AssertApproxEq (total inverse_expo_in_out) 0.001953 0.099995;
    AssertApproxEq (total inverse_expo_in_out) 0.002577 0.119995;
    AssertApproxEq (total inverse_expo_in_out) 0.003906 0.149995;
    AssertApproxEq (total inverse_expo_in_out) 0.007812 0.199995;
    AssertApproxEq (total inverse_expo_in_out) 0.125 0.4;
    AssertApproxEq (total inverse_expo_in_out) 0.5 0.5;
    AssertApproxEq (total inverse_expo_in_out) 0.875 0.6;
    AssertApproxEq (total inverse_expo_in_out) 0.992187 0.799995;
    AssertApproxEq (total inverse_expo_in_out) 0.998046 0.899967;
    AssertApproxEq (total inverse_expo_in_out) 0.999023 0.949967;
    AssertApproxEq (total inverse_expo_in_out) 0.999355 0.979920;
    AssertEq (total inverse_expo_in_out) 1.0 1.0 ]
|}.

Definition test_circ_in : test := {|
  should_panic := false;
  body := [
    AssertEq (total circ_in) 0.0 0.0;
    AssertApproxEq (total circ_in) 0.1 0.005012;
    AssertApproxEq (total circ_in) 0.2 0.020204;
    AssertApproxEq (total circ_in) 0.4 0.083484;
    AssertApproxEq (total circ_in) 0.5 0.133974;
    AssertApproxEq (total circ_in) 0.6 0.2;
    AssertApproxEq (total circ_in) 0.8 0.4;
    AssertApproxEq (total circ_in) 0.9 0.564110;
    AssertApproxEq (total circ_in) 0.95 0.687750;
    AssertApproxEq (total circ_in) 0.98 0.801002;
    AssertApproxEq (total circ_in) 0.99 0.858932;
    AssertApproxEq (total circ_in) 0.999 0.955289;
    AssertEq (total circ_in) 1.0 1.0 ]
|}.

Definition test_inverse_circ_in : test := {|
  should_panic := false;
  body := [
    AssertEq (total inverse_circ_in) 0.0 0.0;
    AssertApproxEq (total inverse_circ_in) 0.005012 0.099994;
    AssertApproxEq (total inverse_circ_in) 0.020204 0.2;
    AssertApproxEq (total inverse_circ_in) 0.083484 0.399998;
    AssertApproxEq (total inverse_circ_in) 0.133974 0.499998;
    AssertApproxEq (total inverse_circ_in) 0.2 0.6;
    AssertApproxEq (total inverse_circ_in) 0.4 0.8;
    AssertApproxEq (total inverse_circ_in) 0.564110 0.9;
    AssertApproxEq (total inverse_circ_in) 0.687750 0.95;
    AssertApproxEq (total inverse_circ_in) 0.801002 0.98;
    AssertApproxEq (total inverse_circ_in) 0.858932 0.99;
    AssertApproxEq (total inverse_circ_in) 0.955289 0.999;
    AssertEq (total inverse_circ_in) 1.0 1.0 ]
|}.

Definition test_circ_out : test := {|
  should_panic := false;
  body := [
    AssertEq (total circ_out) 0.0 0.0;
    AssertApproxEq (total circ_out) 0.01 0.141067;
    AssertApproxEq (total circ_out) 0.025 0.222204;
    AssertApproxEq (total circ_out) 0.05 0.312249;
    AssertApproxEq (total circ_out) 0.1 0.435889;
    AssertApproxEq (total circ_out) 0.2 0.6;
    AssertApproxEq (total circ_out) 0.4 0.8;
    AssertApproxEq (total circ_out) 0.5 0.866025;
    AssertApproxEq (total circ_out) 0.6 0.916515;
    AssertApproxEq (total circ_out) 0.8 0.979795;
    AssertApproxEq (total circ_out) 0.9 0.994987;
    AssertEq (total circ_out) 1.0 1.0 ]
|}.

Definition test_inverse_circ_out : test := {|
  should_panic := false;
  body := [
    AssertEq (total inverse_circ_out) 0.0 0.0;
    AssertApproxEq (total inverse_circ_out) 0.141067 0.01;
    AssertApproxEq (total inverse_circ_out) 0.222204 0.025;
    AssertApproxEq (total inverse_circ_out) 0.312249 0.05;
    AssertApproxEq (total inverse_circ_out) 0.435889 0.1;
    AssertApproxEq (total inverse_circ_out) 0.6 0.2;
    AssertApproxEq (total inverse_circ_out) 0.8 0.4;
    AssertApproxEq (total inverse_circ_out) 0.866025 0.5;
    AssertApproxEq (total inverse_circ_out) 0.916515 0.6;
    AssertApproxEq (total inverse_circ_out) 0.979795 0.799995;
    AssertApproxEq (total inverse_circ_out) 0.994987 0.899995;
    AssertEq (total inverse_circ_out) 1.0 1.0 ]
|}.

Definition test_circ_in_out : test := {|
  should_panic := false;
  body := [
    AssertEq (total circ_in_out) 0.0 0.0;
    AssertApproxEq (total circ_in_out) 0.01 0.000100;
    AssertApproxEq (total circ_in_out) 0.025 0.000625;
    AssertApproxEq (total circ_in_out) 0.05 0.002506;
    AssertApproxEq (total circ_in_out) 0.1 0.010102;
    AssertApproxEq (total circ_in_out) 0.2 0.041742;
    AssertApproxEq (total circ_in_out) 0.4 0.2;
    AssertApproxEq (total circ_in_out) 0.5 0.5;
    AssertApproxEq (total circ_in_out) 0.6 0.8;
    AssertApproxEq (total circ_in_out) 0.8 0.958257;
    AssertApproxEq (total circ_in_out) 0.9 0.989897;
    AssertApproxEq (total circ_in_out) 0.925 0.994342;
    AssertApproxEq (total circ_in_out) 0.95 0.997493;
    AssertApproxEq (total circ_in_out) 0.99 0.999899;
    AssertEq (total circ_in_out) 1.0 1.0 ]
|}.

Definition test_inverse_circ_in_out : test := {|
  should_panic := false;
  body := [
    AssertEq (total inverse_circ_in_out) 0.0 0.0;
    AssertApproxEq (total inverse_circ_in_out) 0.000100 0.01;
    AssertApproxEq (total inverse_circ_in_out) 0.000625 0.024992;
    AssertApproxEq (total inverse_circ_in_out) 0.002506 0.049997;
    AssertApproxEq (total inverse_circ_in_out) 0.010102 0.1;
    AssertApproxEq (total inverse_circ_in_out) 0.041742 0.2;
    AssertApproxEq (total inverse_circ_in_out) 0.2 0.4;
    AssertApproxEq (total inverse_circ_in_out) 0.5 0.5;
    AssertApproxEq (total inverse_circ_in_out) 0.8 0.6;
    AssertApproxEq (total inverse_circ_in_out) 0.958257 0.799998;
    AssertApproxEq (total inverse_circ_in_out) 0.989897 0.899995;
    AssertApproxEq (total inverse_circ_in_out) 0.994342 0.924993;
    AssertApproxEq (total inverse_circ_in_out) 0.997493 0.949992;
    AssertApproxEq (total inverse_circ_in_out) 0.999899 0.989950;
    AssertEq (total inverse_circ_in_out) 1.0 1.0 ]
|}.

Definition test_back_in : test := {|
  should_panic := false;
  body := [
    AssertEq (total back_in) 0.0 0.0;
    AssertApproxEq (total back_in) 0.01 (-0.000167);
    AssertApproxEq (total back_in) 0.05 (-0.003916);
    AssertApproxEq (total back_in) 0.1 (-0.014314);
    AssertApproxEq (total back_in) 0.2 (-0.046450);
    AssertApproxEq (total back_in) 0.3 (-0.080199);
    AssertApproxEq (total back_in) 0.4 (-0.099351);
    AssertApproxEq (total back_in) 0.5 (-0.087697);
    AssertApproxEq (total back_in) 0.6 (-0.029027);
    AssertApproxEq (total back_in) 0.7 0.092867;
    AssertApproxEq (total back_in) 0.8 0.294197;
    AssertApproxEq (total back_in) 0.9 0.591172;
    AssertApproxEq (total back_in) 0.95 0.780591;
    AssertApproxEq (total back_in) 0.99 0.953621;
    AssertEq (total back_in) 1.0 1.0 ]
|}.

Definition test_inverse_back_in : test := {|
  should_panic := true;
  body := [
    AssertEq inverse_back_in 0.0 0.0;
    AssertEq inverse_back_in 1.0 1.0 ]
|}.

Definition test_back_out : test := {|
  should_panic := false;
  body := [
    AssertEq (total back_out) 0.0 0.0;
    AssertApproxEq (total back_out) 0.01 0.046378;
    AssertApproxEq (total back_out) 0.05 0.219408;
    AssertApproxEq (total back_out) 0.1 0.408828;
    AssertApproxEq (total back_out) 0.2 0.705803;
    AssertApproxEq (total back_out) 0.3 0.907132;
    AssertApproxEq (total back_out) 0.4 1.029027;
    AssertApproxEq (total back_out) 0.5 1.087697;
    AssertApproxEq (total back_out) 0.6 1.099351;
    AssertApproxEq (total back_out) 0.7 1.080199;
    AssertApproxEq (total back_out) 0.8 1.046450;
    AssertApproxEq (total back_out) 0.9 1.014314;
    AssertApproxEq (total back_out) 0.95 1.003916;
    AssertApproxEq (total back_out) 0.99 1.000167;
    AssertEq (total back_out) 1.0 1.0 ]
|}.

Definition test_inverse_back_out : test := {|
  should_panic := true;
  body := [
    AssertEq inverse_back_out 0.0 0.0;
    AssertEq inverse_back_out 1.0 1.0 ]
|}.

Definition test_back_in_out : test := {|
  should_panic := false;
  body := [
    AssertEq (total back_in_out) 0.0 0.0;
    AssertApproxEq (total back_in_out) 0.01 (-0.000504);
    AssertApproxEq (total back_in_out) 0.05 (-0.011177);
    AssertApproxEq (total back_in_out) 0.1 (-0.037518);
    AssertApproxEq (total back_in_out) 0.2 (-0.092555);
    AssertApproxEq (total back_in_out) 0.3 (-0.078833);
    AssertApproxEq (total back_in_out) 0.4 0.089925;
    AssertApproxEq (total back_in_out) 0.5 0.5;
    AssertApproxEq (total back_in_out) 0.6 0.910074;
    AssertApproxEq (total back_in_out) 0.7 1.078833;
    AssertApproxEq (total back_in_out) 0.8 1.092555;
    AssertApproxEq (total back_in_out) 0.9 1.037518;
    AssertApproxEq (total back_in_out) 0.95 1.011177;
    AssertApproxEq (total back_in_out) 0.99 1.000504;
    AssertEq (total back_in_out) 1.0 1.0 ]
|}.

Definition test_inverse_back_in_out : test := {|
  should_panic := true;
  body := [
    AssertEq inverse_back_in_out 0.0 0.0;
    AssertEq inverse_back_in_out 1.0 1.0 ]
|}.

Definition test_elastic_in : test := {|
  should_panic := false;
  body := [
    AssertEq (total elastic_in) 0.0 0.0;
    AssertApproxEq (total elastic_in) 0.01 0.0;
    AssertApproxEq (total elastic_in) 0.05 0.000004;
    AssertApproxEq (total elastic_in) 0.1 0.000098;
    AssertApproxEq (total elastic_in) 0.2 0.000494;
    AssertApproxEq (total elastic_in) 0.3 (-0.007217);
    AssertApproxEq (total elastic_in) 0.4 (-0.015047);
    AssertApproxEq (total elastic_in) 0.5 0.044194;
    AssertApproxEq (total elastic_in) 0.6 0.104848;
    AssertApproxEq (total elastic_in) 0.7 (-0.109003);
    AssertApproxEq (total elastic_in) 0.8 (-0.389552);
    AssertApproxEq (total elastic_in) 0.9 0.102636;
    AssertApproxEq (total elastic_in) 0.95 0.619355;
    AssertApproxEq (total elastic_in) 0.99 0.951012;
    AssertEq (total elastic_in) 1.0 1.0 ]
|}.

Definition test_inverse_elastic_in : test := {|
  should_panic := true;
  body := [
    AssertEq inverse_elastic_in 0.0 0.0;
    AssertEq inverse_elastic_in 1.0 1.0 ]
|}.

Definition test_elastic_out : test := {|
  should_panic := false;
  body := [
    AssertEq (total elastic_out) 0.0 0.0;
    AssertApproxEq (total elastic_out) 0.01 0.048987;
    AssertApproxEq (total elastic_out) 0.05 0.380644;
    AssertApproxEq (total elastic_out) 0.1 0.897363;
    AssertApproxEq (total elastic_out) 0.2 1.389552;
    AssertApproxEq (total elastic_out) 0.3 1.109003;
    AssertApproxEq (total elastic_out) 0.4 0.895151;
    AssertApproxEq (total elastic_out) 0.5 0.955805;
    AssertApproxEq (total elastic_out) 0.6 1.015047;
    AssertApproxEq (total elastic_out) 0.7 1.007217;
    AssertApproxEq (total elastic_out) 0.8 0.999505;
    AssertApproxEq (total elastic_out) 0.9 0.999901;
    AssertApproxEq (total elastic_out) 0.95 0.999995;
    AssertApproxEq (total elastic_out) 0.99 0.999999;
    AssertEq (total elastic_out) 1.0 1.0 ]
|}.

Definition test_inverse_elastic_out : test := {|
  should_panic := true;
  body := [
    AssertEq inverse_elastic_out 0.0 0.0;
    AssertEq inverse_elastic_out 1.0 1.0 ]
|}.

Definition test_elastic_in_out : test := {|
  should_panic := false;
  body := [
    AssertEq (total elastic_in_out) 0.0 0.0;
    AssertApproxEq (total elastic_in_out) 0.01 0.0;
    AssertApproxEq (total elastic_in_out) 0.05 0.000049;
    AssertApproxEq (total elastic_in_out) 0.1 0.000247;
    AssertApproxEq (total elastic_in_out) 0.2 (-0.007523);
    AssertApproxEq (total elastic_in_out) 0.3 0.052424;
    AssertApproxEq (total elastic_in_out) 0.4 (-0.194776);
    AssertApproxEq (total elastic_in_out) 0.5 0.5;
    AssertApproxEq (total elastic_in_out) 0.6 1.194776;
    AssertApproxEq (total elastic_in_out) 0.7 0.947575;
    AssertApproxEq (total elastic_in_out) 0.8 1.007523;
    AssertApproxEq (total elastic_in_out) 0.9 0.999752;
    AssertApproxEq (total elastic_in_out) 0.95 0.999950;
    AssertApproxEq (total elastic_in_out) 0.99 0.999999;
    AssertEq (total elastic_in_out) 1.0 1.0 ]
|}.

Definition test_inverse_elastic_in_out : test := {|
  should_panic := true;
  body := [
    AssertEq inverse_bounce_in 0.0 0.0;
    AssertEq inverse_bounce_in 1.0 1.0 ]
|}.

Definition test_bounce_in : test := {|
  should_panic := false;
  body := [
    AssertEq (total bounce_in) 0.0 0.0;
    AssertApproxEq (total bounce_in) 0.01 0.001787;
    AssertApproxEq (total bounce_in) 0.05 0.010051;
    AssertApproxEq (total bounce_in) 0.1 0.021101;
    AssertApproxEq (total bounce_in) 0.2 0.029041;
    AssertApproxEq (total bounce_in) 0.3 0.008511;
    AssertApproxEq (total bounce_in) 0.4 0.078432;
    AssertApproxEq (total bounce_in) 0.5 0.088388;
    AssertApproxEq (total bounce_in) 0.6 0.058547;
    AssertApproxEq (total bounce_in) 0.7 0.283638;
    AssertApproxEq (total bounce_in) 0.8 0.255848;
    AssertApproxEq (total bounce_in) 0.9 0.299522;
    AssertApproxEq (total bounce_in) 0.95 0.692559;
    AssertApproxEq (total bounce_in) 0.99 0.953471;
    AssertEq (total bounce_in) 1.0 1.0 ]
|}.

Definition test_inverse_bounce_in : test := {|
  should_panic := true;
  body := [
    AssertEq inverse_bounce_in 0.0 0.0;
    AssertEq inverse_bounce_in 1.0 1.0 ]
|}.

Definition test_bounce_out : test := {|
  should_panic := false;
  body := [
    AssertEq (total bounce_out) 0.0 0.0;
    AssertApproxEq (total bounce_out) 0.01 0.046528;
    AssertApproxEq (total bounce_out) 0.05 0.307440;
    AssertApproxEq (total bounce_out) 0.1 0.700477;
    AssertApproxEq (total bounce_out) 0.2 0.744151;
    AssertApproxEq (total bounce_out) 0.3 0.716361;
    AssertApproxEq (total bounce_out) 0.4 0.941452;
    AssertApproxEq (total bounce_out) 0.5 0.911611;
    AssertApproxEq (total bounce_out) 0.6 0.921567;
    AssertApproxEq (total bounce_out) 0.7 0.991488;
    AssertApproxEq (total bounce_out) 0.8 0.970958;
    AssertApproxEq (total bounce_out) 0.9 0.978898;
    AssertApproxEq (total bounce_out) 0.95 0.989948;
    AssertApproxEq (total bounce_out) 0.99 0.998212;
    AssertEq (total bounce_out) 1.0 1.0 ]
|}.

Definition test_inverse_bounce_out : test := {|
  should_panic := true;
  body := [
    AssertEq inverse_bounce_out 0.0 0.0;
    AssertEq inverse_bounce_out 1.0 1.0 ]
|}.

Definition test_bounce_in_out : test := {|
  should_panic := false;
  body := [
    AssertEq (total bounce_in_out) 0.0 0.0;
    AssertApproxEq (total bounce_in_out) 0.01 0.007205;
    AssertApproxEq (total bounce_in_out) 0.05 0.036740;
    AssertApproxEq (total bounce_in_out) 0.1 0.044018;
    AssertApproxEq (total bounce_in_out) 0.2 0.090095;
    AssertApproxEq (total bounce_in_out) 0.3 0.050968;
    AssertApproxEq (total bounce_in_out) 0.4 0.168796;
    AssertApproxEq (total bounce_in_out) 0.5 0.5;
    AssertApproxEq (total bounce_in_out) 0.6 0.831203;
    AssertApproxEq (total bounce_in_out) 0.7 0.949031;
    AssertApproxEq (total bounce_in_out) 0.8 0.909904;
    AssertApproxEq (total bounce_in_out) 0.9 0.955981;
    AssertApproxEq (total bounce_in_out) 0.95 0.963259;
    AssertApproxEq (total bounce_in_out) 0.99 0.992794;
    AssertEq (total bounce_in_out) 1.0 1.0 ]
|}.

Definition test_inverse_bounce_in_out : test := {|
  should_panic := true;
  body := [
    AssertEq inverse_bounce_in_out 0.0 0.0;
    AssertEq inverse_bounce_in_out 1.0 1.0 ]
|}.

Definition tests : list test := [
  test_sine_in;
  test_inverse_sine_in;
  test_sine_out;
  test_inverse_sine_out;
  test_sine_in_out;
  test_inverse_sine_in_out;
  test_quad_in;
  test_inverse_quad_in;
  test_quad_out;
  test_inverse_quad_out;
  test_quad_in_out;
  test_inverse_quad_in_out;
  test_cubic_in;
  test_inverse_cubic_in;
  test_cubic_out;
  test_inverse_cubic_out;
  test_cubic_in_out;
  test_inverse_cubic_in_out;
  test_quart_in;
  test_inverse_quart_in;
  test_quart_out;
  test_inverse_quart_out;
  test_quart_in_out;
  test_inverse_quart_in_out;
  test_quint_in;
  test_inverse_quint_in;
  test_quint_out;
  test_inverse_quint_out;
  test_quint_in_out;
  test_inverse_quint_in_out;
  test_expo_in;
  test_inverse_expo_in;
  test_expo_out;
  test_inverse_expo_out;
  test_expo_in_out;
  test_inverse_expo_in_out;
  test_circ_in;
  test_inverse_circ_in;
  test_circ_out;
  test_inverse_circ_out;
  test_circ_in_out;
  test_inverse_circ_in_out;
  test_back_in;
  test_inverse_back_in;
  test_back_out;
  test_inverse_back_out;
  test_back_in_out;
  test_inverse_back_in_out;
  test_elastic_in;
  test_inverse_elastic_in;
  test_elastic_out;
  test_inverse_elastic_out;
  test_elastic_in_out;
  test_inverse_elastic_in_out;
  test_bounce_in;
  test_inverse_bounce_in;
  test_bounce_out;
  test_inverse_bounce_out;
  test_bounce_in_out;
  test_inverse_bounce_in_out ].

(** The tests whose functions call no libm function: the Quad and Circ
    tests, the forward tests of Cubic, Quart, Quint and Back, and the
    [#[should_panic]] tests. *)
Definition libm_free_tests : list test := [
  test_quad_in; test_inverse_quad_in; test_quad_out; test_inverse_quad_out;
  test_quad_in_out; test_inverse_quad_in_out;
  test_cubic_in; test_cubic_out; test_cubic_in_out;
  test_quart_in; test_quart_out; test_quart_in_out;
  test_quint_in; test_quint_out; test_quint_in_out;
  test_circ_in; test_inverse_circ_in; test_circ_out; test_inverse_circ_out;
  test_circ_in_out; test_inverse_circ_in_out;
  test_back_in; test_inverse_back_in; test_back_out; test_inverse_back_out;
  test_back_in_out; test_inverse_back_in_out;
  test_inverse_elastic_in; test_inverse_elastic_out; test_inverse_elastic_in_out;
  test_inverse_bounce_in; test_inverse_bounce_out; test_inverse_bounce_in_out ].

End Tests.

(** ** The caller [examples/custom_plot_easing] *)

(** The radius of the animated circle:
    [10.0 + self.easing.apply(t.sin().abs()) * 30.0] (before the cast to
    [f32]). *)
Definition example_radius {L : Libm} (easing : Easing) (t : float) : option float :=
  match apply easing (abs (sin t)) with
  | Some y => Some (10 + y * 30)
  | None => None
  end.

(** [PlotExample::default().easing]. *)
Definition example_default_easing : Easing := SineIn.

(** One frame of the picker: [for easing in Easing::all() {
    ui.selectable_value(&mut self.easing, easing, ..) }]. Clicking one of
    the listed values stores it; otherwise [self.easing] is unchanged. The
    loop visits the items of the drained iterator ([drain 31 all]). *)
Inductive picker_step : Easing -> Easing -> Prop :=
  | picker_keep e : picker_step e e
  | picker_select e e' : In e' (fst (drain 31 all)) -> picker_step e e'.

(** The values [self.easing] can hold after any number of frames. *)
Inductive example_reachable : Easing -> Prop :=
  | reach_default : example_reachable example_default_easing
  | reach_step e e' : example_reachable e -> picker_step e e' -> example_reachable e'.

(** The InOut families whose two half formulas meet exactly at [0.5]. *)
Definition exact_midpoint_families : list Family := [Quad; Cubic; Quart; Quint; Circ; Back].

(** The libm calls of the 21 inverse curves at [0.0] and [1.0], with their correctly rounded results. *)
Definition inverse_boundary_points : list (libm_call * float) := [
  (Cbrt 0x0.0p+0, 0x0.0p+0);
  (Cbrt 0x1.0000000000000p+0, 0x1.0000000000000p+0);
  (Powf 0x0.0p+0 0x1.999999999999ap-3, 0x0.0p+0);
  (Powf 0x0.0p+0 0x1.0000000000000p-2, 0x0.0p+0);
  (Powf 0x1.0000000000000p+0 0x1.999999999999ap-3, 0x1.0000000000000p+0);
  (Powf 0x1.0000000000000p+0 0x1.0000000000000p-2, 0x1.0000000000000p+0)
].

(** The libm calls of the forward and inverse curves at NaN: IEEE-754 libm functions return NaN on a NaN argument (and [pow(2, NaN)] is NaN). *)
Definition nan_points : list (libm_call * float) := [
  (Sin nan, nan);
  (Cos nan, nan);
  (Asin nan, nan);
  (Acos nan, nan);
  (Cbrt nan, nan);
  (Log2 nan, nan);
  (Powf 0x1.0000000000000p+1 nan, nan);
  (Powf nan 0x1.999999999999ap-3, nan);
  (Powf nan 0x1.0000000000000p-2, nan)
].

(** The libm calls made by the [assert_eq!] assertions of the unit tests, with their correctly rounded results. *)
Definition test_exact_points : list (libm_call * float) := [
  (Sin 0x0.0p+0, 0x0.0p+0);
  (Sin 0x1.5fdbbe9bba775p+3, (-0x1.0000000000000p+0));
  (Sin 0x1.c463abeccb2bbp+3, 0x1.0000000000000p+0);
  (Sin 0x1.5fdbbe9bba775p+4, 0x1.ee2c2d963a10cp-51);
  (Sin 0x1.c463abeccb2bbp+4, 0x1.3daeaf976e788p-50);
  (Cos 0x0.0p+0, 0x1.0000000000000p+0);
  (Cos 0x1.5fdbbe9bba775p+3, (-0x1.ee2c2d963a10cp-52));
  (Cos 0x1.c463abeccb2bbp+3, 0x1.3daeaf976e788p-51);
  (Cbrt 0x0.0p+0, 0x0.0p+0);
  (Cbrt 0x1.0000000000000p+0, 0x1.0000000000000p+0);
  (Powf 0x0.0p+0 0x1.999999999999ap-3, 0x0.0p+0);
  (Powf 0x0.0p+0 0x1.0000000000000p-2, 0x0.0p+0);
  (Powf 0x1.0000000000000p+0 0x1.999999999999ap-3, 0x1.0000000000000p+0);
  (Powf 0x1.0000000000000p+0 0x1.0000000000000p-2, 0x1.0000000000000p+0);
  (Powf 0x1.0000000000000p+1 (-0x1.0000000000000p+3), 0x1.0000000000000p-8);
  (Powf 0x1.0000000000000p+1 (-0x1.8000000000000p+2), 0x1.0000000000000p-6);
  (Powf 0x1.0000000000000p+1 (-0x0.0p+0), 0x1.0000000000000p+0);
  (Powf 0x1.0000000000000p+1 0x0.0p+0, 0x1.0000000000000p+0)
].

(** The libm calls made by the [assert_approx_eq!] assertions of the unit tests, when every libm result is within two ulps of the correctly rounded one, with their correctly rounded results. *)
Definition test_close_points : list (libm_call * float) := [
  (Sin 0x1.c260f3fa8846ep-4, 0x1.c178c3d6297dap-4);
  (Sin 0x1.21877845a0bfdp-3, 0x1.2090d3391aae9p-3);
  (Sin 0x1.c260f3fa8846ep-3, 0x1.bec1e23d21f6ap-3);
  (Sin 0x1.21877845a0bfdp-2, 0x1.1dafd83140e0ep-2);
  (Sin 0x1.41b2f769cf0e0p-2, 0x1.3c6ef372fe94fp-2);
  (Sin 0x1.197c987c952c4p-1, 0x1.0b84ee8f52e9cp-1);
  (Sin 0x1.41b2f769cf0e0p-1, 0x1.2cf2304755a5ep-1);
  (Sin 0x1.69e9565708efcp-1, 0x1.4c8474600eeeep-1);
  (Sin 0x1.921fb54442d18p-1, 0x1.6a09e667f3bccp-1);
  (Sin 0x1.e28c731eb6950p-1, 0x1.9e3779b97f4a8p-1);
  (Sin 0x1.197c987c952c4p+0, 0x1.c83201d3d2c6cp-1);
  (Sin 0x1.41b2f769cf0e0p+0, 0x1.e6f0e134454ffp-1);
  (Sin 0x1.69e9565708efcp+0, 0x1.f9b24942fe45cp-1);
  (Sin 0x1.197c987c952c4p+1, 0x1.9e3779b97f4a8p-1);
  (Sin 0x1.69e9565708efcp+1, 0x1.3c6ef372fe951p-2);
  (Sin 0x1.a63ae4badfc26p+1, (-0x1.4060b67a85370p-3));
  (Sin 0x1.0f6f00c146b3dp+2, (-0x1.c83201d3d2c6cp-1));
  (Sin 0x1.197c987c952c4p+2, (-0x1.e6f0e134454ffp-1));
  (Sin 0x1.5fdbbe9bba775p+2, (-0x1.6a09e667f3bcep-1));
  (Sin 0x1.69e9565708efcp+2, (-0x1.2cf2304755a60p-1));
  (Sin 0x1.921fb54442d18p+2, (-0x1.1a62633145c07p-52));
  (Sin 0x1.a63ae4badfc26p+2, 0x1.3c6ef372fe94bp-2);
  (Sin 0x1.c463abeccb2bbp+2, 0x1.6a09e667f3bcbp-1);
  (Sin 0x1.ec9a0ada050d7p+2, 0x1.f9b24942fe45bp-1);
  (Sin 0x1.0f6f00c146b3dp+3, 0x1.9e3779b97f4aap-1);
  (Sin 0x1.197c987c952c4p+3, 0x1.2cf2304755a60p-1);
  (Sin 0x1.3cac2b8c27d1cp+3, (-0x1.d0e2e2b44ddecp-2));
  (Sin 0x1.4e43f513f1249p+3, (-0x1.b48d406a50541p-1));
  (Sin 0x1.5c56fcb3c566cp+3, (-0x1.fce8734a5ca02p-1));
  (Sin 0x1.5fdbbe9bba775p+3, (-0x1.0000000000000p+0));
  (Sin 0x1.69e9565708efcp+3, (-0x1.e6f0e13445501p-1));
  (Sin 0x1.97268121ea0dcp+3, 0x1.4060b67a85383p-3);
  (Sin 0x1.a63ae4badfc26p+3, 0x1.2cf2304755a5ap-1);
  (Sin 0x1.adc516875a9cbp+3, 0x1.8553ee43def0dp-1);
  (Sin 0x1.bfdd8e0bb4a8cp+3, 0x1.fae46180515d2p-1);
  (Sin 0x1.ec9a0ada050d7p+3, 0x1.3c6ef372fe95ap-2);
  (Sin 0x1.0f6f00c146b3dp+4, (-0x1.e6f0e134454fep-1));
  (Sin 0x1.197c987c952c4p+4, (-0x1.e6f0e13445501p-1));
  (Sin 0x1.3cac2b8c27d1cp+4, 0x1.9e3779b97f49ap-1);
  (Sin 0x1.4e43f513f1249p+4, 0x1.c83201d3d2c6cp-1);
  (Sin 0x1.5c56fcb3c566cp+4, 0x1.bec1e23d21f9ap-3);
  (Sin 0x1.69e9565708efcp+4, (-0x1.2cf2304755a58p-1));
  (Sin 0x1.97268121ea0dcp+4, 0x1.3c6ef372fe95dp-2);
  (Sin 0x1.adc516875a9cbp+4, 0x1.f9b24942fe45ep-1);
  (Sin 0x1.bfdd8e0bb4a8cp+4, 0x1.1dafd83140de6p-2);
  (Cos 0x1.c260f3fa8846ep-4, 0x1.fce8734a5ca03p-1);
  (Cos 0x1.21877845a0bfdp-3, 0x1.fae46180515d0p-1);
  (Cos 0x1.41b2f769cf0e0p-2, 0x1.e6f0e134454ffp-1);
  (Cos 0x1.197c987c952c4p-1, 0x1.b48d406a50540p-1);
  (Cos 0x1.41b2f769cf0e0p-1, 0x1.9e3779b97f4a8p-1);
  (Cos 0x1.69e9565708efcp-1, 0x1.8553ee43def13p-1);
  (Cos 0x1.921fb54442d18p-1, 0x1.6a09e667f3bcdp-1);
  (Cos 0x1.e28c731eb6950p-1, 0x1.2cf2304755a5ep-1);
  (Cos 0x1.197c987c952c4p+0, 0x1.d0e2e2b44de01p-2);
  (Cos 0x1.41b2f769cf0e0p+0, 0x1.3c6ef372fe950p-2);
  (Cos 0x1.69e9565708efcp+0, 0x1.4060b67a85377p-3);
  (Cos 0x1.921fb54442d18p+0, 0x1.1a62633145c07p-54);
  (Cos 0x1.e28c731eb6950p+0, (-0x1.3c6ef372fe94ep-2));
  (Cos 0x1.197c987c952c4p+1, (-0x1.2cf2304755a5dp-1));
  (Cos 0x1.41b2f769cf0e0p+1, (-0x1.9e3779b97f4a7p-1));
  (Cos 0x1.69e9565708efcp+1, (-0x1.e6f0e134454ffp-1));
  (Cos 0x1.a63ae4badfc26p+1, (-0x1.f9b24942fe45cp-1));
  (Cos 0x1.0f6f00c146b3dp+2, (-0x1.d0e2e2b44de03p-2));
  (Cos 0x1.197c987c952c4p+2, (-0x1.3c6ef372fe952p-2));
  (Cos 0x1.5fdbbe9bba775p+2, 0x1.6a09e667f3bcbp-1);
  (Cos 0x1.69e9565708efcp+2, 0x1.9e3779b97f4a7p-1);
  (Cos 0x1.a63ae4badfc26p+2, 0x1.e6f0e13445500p-1);
  (Cos 0x1.c463abeccb2bbp+2, 0x1.6a09e667f3bcep-1);
  (Cos 0x1.ec9a0ada050d7p+2, 0x1.4060b67a85380p-3);
  (Cos 0x1.0f6f00c146b3dp+3, (-0x1.2cf2304755a5cp-1));
  (Cos 0x1.197c987c952c4p+3, (-0x1.9e3779b97f4a6p-1));
  (Cos 0x1.3cac2b8c27d1cp+3, (-0x1.c83201d3d2c72p-1));
  (Cos 0x1.4e43f513f1249p+3, (-0x1.0b84ee8f52e9cp-1));
  (Cos 0x1.5c56fcb3c566cp+3, (-0x1.c178c3d62980ap-4));
  (Cos 0x1.69e9565708efcp+3, 0x1.3c6ef372fe948p-2);
  (Cos 0x1.97268121ea0dcp+3, 0x1.f9b24942fe45bp-1);
  (Cos 0x1.adc516875a9cbp+3, 0x1.4c8474600eef5p-1);
  (Cos 0x1.bfdd8e0bb4a8cp+3, 0x1.2090d3391aac0p-3);
  (Asin 0x1.3c6eb0b7c3505p-2, 0x1.41b2b13f7072cp-2);
  (Asin 0x1.2cf227d028a1ep-1, 0x1.41b2ecf3084ebp-1);
  (Asin 0x1.6a09cc319c5a4p-1, 0x1.921f903269173p-1);
  (Asin 0x1.9e37585be1a82p-1, 0x1.e28c3a5add8cdp-1);
  (Asin 0x1.e6f0cfe154435p-1, 0x1.41b2db61f0e62p+0);
  (Acos (-0x1.9e37585be1a82p-1), 0x1.41b2e938d8cc0p+1);
  (Acos (-0x1.3c6eb0b7c3504p-2), 0x1.e28c61941eee3p+0);
  (Acos 0x0.0p+0, 0x1.921fb54442d18p+0);
  (Acos 0x1.3c6ef3d3a1d32p-2, 0x1.41b2f75067f5cp+0);
  (Acos 0x1.3c6f36ef80560p-2, 0x1.41b2e5ac68d18p+0);
  (Acos 0x1.2cf2495e17e34p-1, 0x1.e28c541bbe7f4p-1);
  (Acos 0x1.6a09edbf8b9bap-1, 0x1.921faae21d457p-1);
  (Acos 0x1.9e3779e9d0e99p-1, 0x1.41b2f7179a990p-1);
  (Acos 0x1.9e379b77c02b0p-1, 0x1.41b2be0184592p-1);
  (Acos 0x1.e6f0f16f4384cp-1, 0x1.41b28e5e10826p-2);
  (Cbrt 0x1.0624dd2f1a9fcp-7, 0x1.999999999999ap-3);
  (Cbrt 0x1.0624dd2f1aa00p-7, 0x1.999999999999cp-3);
  (Cbrt 0x1.0624dd2f1a9f8p-4, 0x1.9999999999998p-2);
  (Cbrt 0x1.0624dd2f1a9fcp-4, 0x1.999999999999ap-2);
  (Cbrt 0x1.0624dd2f1aa00p-4, 0x1.999999999999cp-2);
  (Cbrt 0x1.0000000000000p-3, 0x1.0000000000000p-1);
  (Cbrt 0x1.ba5e353f7ced8p-3, 0x1.3333333333333p-1);
  (Cbrt 0x1.ba5e353f7ced9p-3, 0x1.3333333333333p-1);
  (Cbrt 0x1.0624dd2f1a9fcp-1, 0x1.999999999999ap-1);
  (Cbrt 0x1.0000000000000p+0, 0x1.0000000000000p+0);
  (Log2 0x1.2620253975600p-10, (-0x1.39973cccb5426p+3));
  (Log2 0x1.522a6f3f53000p-10, (-0x1.3326337aa5083p+3));
  (Log2 0x1.6a48733658800p-10, (-0x1.2ff806c6dd2bdp+3));
  (Log2 0x1.001d5c3159400p-9, (-0x1.1ffab4db55a07p+3));
  (Log2 0x1.fff79c842fa51p-9, (-0x1.0000c1a435e1ep+3));
  (Log2 0x1.000c9539b8880p-8, (-0x1.fffb764ccddb7p+2));
  (Log2 0x1.001d5c3159400p-8, (-0x1.fff569b6ab40ep+2));
  (Log2 0x1.51c5c5718eb89p-8, (-0x1.e667e7377d6c9p+2));
  (Log2 0x1.fff79c842fa51p-8, (-0x1.c00183486bc3bp+2));
  (Log2 0x1.fff79c842fa51p-7, (-0x1.800183486bc3bp+2));
  (Log2 0x1.0000000000000p-6, (-0x1.8000000000000p+2));
  (Log2 0x1.000431bde82c0p-6, (-0x1.7ffe7cbdec916p+2));
  (Log2 0x1.0000000000000p-5, (-0x1.4000000000000p+2));
  (Log2 0x1.0000000000000p-4, (-0x1.0000000000000p+2));
  (Log2 0x1.0000000000000p-2, (-0x1.0000000000000p+1));
  (Log2 0x1.0000000000000p-1, (-0x1.0000000000000p+0));
  (Log2 0x1.6a09cc319c5a4p-1, (-0x1.0000357af9b28p-1));
  (Log2 0x1.bdb8bac710cb3p-1, (-0x1.999a16e4a5699p-3));
  (Log2 0x1.0000000000000p+0, 0x0.0p+0);
  (Powf 0x1.4f8b588e36800p-12 0x1.999999999999ap-3, 0x1.999999999995ep-3);
  (Powf 0x1.4f8b588e368f1p-12 0x1.999999999999ap-3, 0x1.9999999999999p-3);
  (Powf 0x1.a36e2eb1c432dp-10 0x1.0000000000000p-2, 0x1.999999999999ap-3);
  (Powf 0x1.a36e2eb1c4400p-10 0x1.0000000000000p-2, 0x1.99999999999cdp-3);
  (Powf 0x1.4f8b588e368f1p-7 0x1.999999999999ap-3, 0x1.9999999999999p-2);
  (Powf 0x1.4f8b588e36900p-7 0x1.999999999999ap-3, 0x1.999999999999dp-2);
  (Powf 0x1.a36e2eb1c4320p-6 0x1.0000000000000p-2, 0x1.9999999999997p-2);
  (Powf 0x1.a36e2eb1c432dp-6 0x1.0000000000000p-2, 0x1.999999999999ap-2);
  (Powf 0x1.a36e2eb1c4340p-6 0x1.0000000000000p-2, 0x1.999999999999ep-2);
  (Powf 0x1.0000000000000p-5 0x1.999999999999ap-3, 0x1.0000000000000p-1);
  (Powf 0x1.0000000000000p-4 0x1.0000000000000p-2, 0x1.0000000000000p-1);
  (Powf 0x1.3e81450efdc9cp-4 0x1.999999999999ap-3, 0x1.3333333333333p-1);
  (Powf 0x1.3e81450efdca0p-4 0x1.999999999999ap-3, 0x1.3333333333334p-1);
  (Powf 0x1.096bb98c7e282p-3 0x1.0000000000000p-2, 0x1.3333333333333p-1);
  (Powf 0x1.096bb98c7e284p-3 0x1.0000000000000p-2, 0x1.3333333333334p-1);
  (Powf 0x1.4f8b588e368f0p-2 0x1.999999999999ap-3, 0x1.9999999999999p-1);
  (Powf 0x1.4f8b588e368f1p-2 0x1.999999999999ap-3, 0x1.999999999999ap-1);
  (Powf 0x1.a36e2eb1c432cp-2 0x1.0000000000000p-2, 0x1.9999999999999p-1);
  (Powf 0x1.a36e2eb1c432dp-2 0x1.0000000000000p-2, 0x1.999999999999ap-1);
  (Powf 0x1.0000000000000p+0 0x1.999999999999ap-3, 0x1.0000000000000p+0);
  (Powf 0x1.0000000000000p+0 0x1.0000000000000p-2, 0x1.0000000000000p+0);
  (Powf 0x1.0000000000000p+1 (-0x1.399999999999ap+3), 0x1.2611186bae672p-10);
  (Powf 0x1.0000000000000p+1 (-0x1.3333333333334p+3), 0x1.51cb453b95366p-10);
  (Powf 0x1.0000000000000p+1 (-0x1.3000000000000p+3), 0x1.6a09e667f3bcdp-10);
  (Powf 0x1.0000000000000p+1 (-0x1.2000000000000p+3), 0x1.0000000000000p-9);
  (Powf 0x1.0000000000000p+1 (-0x1.0000000000000p+3), 0x1.0000000000000p-8);
  (Powf 0x1.0000000000000p+1 (-0x1.fae147ae147aep+2), 0x1.0e98bbfb7e3ddp-8);
  (Powf 0x1.0000000000000p+1 (-0x1.e666666666666p+2), 0x1.51cb453b9536ep-8);
  (Powf 0x1.0000000000000p+1 (-0x1.ccccccccccccdp+2), 0x1.bdb8cdadbe11fp-8);
  (Powf 0x1.0000000000000p+1 (-0x1.c000000000000p+2), 0x1.0000000000000p-7);
  (Powf 0x1.0000000000000p+1 (-0x1.999999999999ap+2), 0x1.8406003b2ae5bp-7);
  (Powf 0x1.0000000000000p+1 (-0x1.8000000000000p+2), 0x1.0000000000000p-6);
  (Powf 0x1.0000000000000p+1 (-0x1.7c28f5c28f5c2p+2), 0x1.0adf093e032b1p-6);
  (Powf 0x1.0000000000000p+1 (-0x1.6ccccccccccccp+2), 0x1.3b2c47bff832cp-6);
  (Powf 0x1.0000000000000p+1 (-0x1.6666666666666p+2), 0x1.51cb453b9536ep-6);
  (Powf 0x1.0000000000000p+1 (-0x1.599999999999ap+2), 0x1.8406003b2ae5bp-6);
  (Powf 0x1.0000000000000p+1 (-0x1.4000000000000p+2), 0x1.0000000000000p-5);
  (Powf 0x1.0000000000000p+1 (-0x1.3333333333334p+2), 0x1.2611186bae672p-5);
  (Powf 0x1.0000000000000p+1 (-0x1.3333333333333p+2), 0x1.2611186bae675p-5);
  (Powf 0x1.0000000000000p+1 (-0x1.0ccccccccccccp+2), 0x1.bdb8cdadbe124p-5);
  (Powf 0x1.0000000000000p+1 (-0x1.0000000000000p+2), 0x1.0000000000000p-4);
  (Powf 0x1.0000000000000p+1 (-0x1.cccccccccccccp+1), 0x1.51cb453b9536ep-4);
  (Powf 0x1.0000000000000p+1 (-0x1.8000000000000p+1), 0x1.0000000000000p-3);
  (Powf 0x1.0000000000000p+1 (-0x1.3333333333334p+1), 0x1.8406003b2ae5bp-3);
  (Powf 0x1.0000000000000p+1 (-0x1.0000000000000p+1), 0x1.0000000000000p-2);
  (Powf 0x1.0000000000000p+1 (-0x1.ccccccccccccep+0), 0x1.2611186bae674p-2);
  (Powf 0x1.0000000000000p+1 (-0x1.cccccccccccccp+0), 0x1.2611186bae675p-2);
  (Powf 0x1.0000000000000p+1 (-0x1.3333333333334p+0), 0x1.bdb8cdadbe11fp-2);
  (Powf 0x1.0000000000000p+1 (-0x1.3333333333332p+0), 0x1.bdb8cdadbe122p-2);
  (Powf 0x1.0000000000000p+1 (-0x1.0000000000000p+0), 0x1.0000000000000p-1);
  (Powf 0x1.0000000000000p+1 (-0x1.3333333333334p-1), 0x1.51cb453b9536cp-1);
  (Powf 0x1.0000000000000p+1 (-0x1.3333333333332p-1), 0x1.51cb453b9536dp-1);
  (Powf 0x1.0000000000000p+1 (-0x1.0000000000000p-1), 0x1.6a09e667f3bcdp-1);
  (Powf 0x1.0000000000000p+1 (-0x1.3333333333338p-2), 0x1.9fdf8bcce533cp-1);
  (Powf 0x1.0000000000000p+1 (-0x1.3333333333334p-2), 0x1.9fdf8bcce533dp-1);
  (Powf 0x1.0000000000000p+1 (-0x1.9999999999980p-3), 0x1.bdb8cdadbe124p-1);
  (Powf 0x1.0000000000000p+1 (-0x1.eb851eb851ec0p-5), 0x1.eb24aaa974dd7p-1);
  (Powf 0x1.0000000000000p+1 (-0x1.eb851eb851eb8p-5), 0x1.eb24aaa974dd7p-1);
  (Powf 0x1.0000000000000p+1 0x0.0p+0, 0x1.0000000000000p+0)
].

Definition extra_points : list (libm_call * float) :=
  inverse_boundary_points ++ nan_points ++ test_exact_points ++ test_close_points.

(** A libm that is also correctly rounded at the calls of the
    statements below. *)
Definition extended_libm : Libm := {|
  sin x := lookup_call (Sin x) (listed_points ++ extra_points);
  cos x := lookup_call (Cos x) (listed_points ++ extra_points);
  asin x := lookup_call (Asin x) (listed_points ++ extra_points);
  acos x := lookup_call (Acos x) (listed_points ++ extra_points);
  cbrt x := lookup_call (Cbrt x) (listed_points ++ extra_points);
  log2 x := lookup_call (Log2 x) (listed_points ++ extra_points);
  powf x y := lookup_call (Powf x y) (listed_points ++ extra_points)
|}.


(** ** Claims *)

(** C1 (boundary law). For each of the 30 variants (not [Max]),
    [apply(e, 0.0)] and [apply(e, 1.0)] return a value equal ([==]) to
    [0.0] and [1.0] respectively, whenever libm is correctly rounded at the
    handful of calls these evaluations make ([sin], [cos] and [powf] at
    [0], at multiples of [PI] and at small powers of two). [BackInOut]
    returns [-0.0] at [0.0], which is [== 0.0]. *)
Theorem boundary_law {L : Libm} :
  libm_exact_at boundary_points ->
  forall e, e <> Max ->
  option_map (fun y => y == 0) (apply e 0) = Some true /\
  option_map (fun y => y == 1) (apply e 1) = Some true.
Proof.
  intros H e He.
  destruct e; try congruence; split; eval_exact H; reflexivity.
Qed.

(** Discharging a point-list assumption for [correctly_rounded_libm]. *)
Ltac check_points :=
  repeat (apply Forall_cons; [vm_compute; first [reflexivity | left; reflexivity] |]);
  apply Forall_nil.

Lemma boundary_law_witness :
  libm_exact_at (L := correctly_rounded_libm) boundary_points /\
  option_map (fun y => y == 0) (apply (L := correctly_rounded_libm) BounceOut 0) = Some true /\
  option_map (fun y => y == 1) (apply (L := correctly_rounded_libm) BounceOut 1) = Some true.
Proof.
  assert (H : libm_exact_at (L := correctly_rounded_libm) boundary_points)
    by (unfold libm_exact_at; check_points).
  split; [exact H |].
  apply (boundary_law (L := correctly_rounded_libm) H BounceOut).
  discriminate.
Defined.

(** C2 (reversibility gate). For any libm: on every Back, Elastic or
    Bounce variant, [inverse] panics ([unimplemented!]) at every input;
    on every variant of the seven other families it returns a value at
    every input (in particular on [[0, 1]]). *)
Theorem reversibility_gate {L : Libm} :
  forall e f, family e = Some f ->
  (In f irreversible_families -> forall t, inverse e t = None) /\
  (In f invertible_families -> forall t, exists y, inverse e t = Some y).
Proof.
  intros e f Hf.
  destruct e; cbn in Hf; try discriminate Hf; injection Hf as <-; cbn;
    split; intros Hin t; try (eexists; reflexivity); try reflexivity;
    exfalso; intuition discriminate.
Qed.

Lemma reversibility_gate_witness :
  family BackIn = Some Back /\ In Back irreversible_families /\
  inverse (L := correctly_rounded_libm) BackIn 0.5 = None.
Proof.
  split; [reflexivity |]. split; [left; reflexivity |].
  apply (proj1 (reversibility_gate (L := correctly_rounded_libm) BackIn Back eq_refl)).
  left; reflexivity.
Defined.

(** C4. [Easing::reversible] is [true] exactly on the variants of the
    Sine, Quad, Cubic, Quart, Quint, Expo and Circ families, and [false]
    on every Back, Elastic and Bounce variant. *)
Theorem reversible_iff_family :
  forall e f, family e = Some f ->
  (reversible e = true <-> In f invertible_families) /\
  (In f irreversible_families -> reversible e = false).
Proof.
  intros e f Hf.
  destruct e; cbn in Hf; try discriminate Hf; injection Hf as <-; cbn;
    (split; [split; intros H; [intuition discriminate | try reflexivity] |]);
    intuition discriminate.
Qed.

Lemma reversible_iff_family_witness :
  family ElasticOut = Some Elastic /\ In Elastic irreversible_families /\
  reversible ElasticOut = false.
Proof.
  split; [reflexivity |]. split; [right; left; reflexivity |].
  apply (proj2 (reversible_iff_family ElasticOut Elastic eq_refl)).
  right; left; reflexivity.
Defined.

(** The thirty variants in ordinal order. *)
Definition catalog : list Easing := map easing_from (seq 0 30).

(** C5 (catalog completeness). Draining [Easing::all()] yields exactly
    the thirty variants of ordinals 0, 1, ..., 29 in that order, without
    the sentinel [Max], and stops there; [Easing::from(i)] inverts
    [as usize] on [0..29] and maps every [i >= 30] to [Max]. *)
Theorem catalog_completeness :
  (forall fuel, (31 <= fuel)%nat -> drain fuel all = (catalog, {| current := Max |})) /\
  map ordinal catalog = seq 0 30 /\
  ~ In Max catalog /\
  (forall i, (i < 30)%nat -> ordinal (easing_from i) = i) /\
  (forall i, (30 <= i)%nat -> easing_from i = Max).
Proof.
  split; [| split; [reflexivity | split; [| split]]].
  - intros fuel Hf.
    replace fuel with (31 + (fuel - 31))%nat by lia. reflexivity.
  - cbn. intuition discriminate.
  - intros i Hi. do 30 (destruct i as [|i]; [reflexivity |]). lia.
  - intros i Hi. do 30 (destruct i as [|i]; [lia |]). reflexivity.
Qed.

Lemma catalog_completeness_witness :
  (31 <= 40)%nat /\ drain 40 all = (catalog, {| current := Max |}) /\
  (7 < 30)%nat /\ ordinal (easing_from 7) = 7%nat /\
  (30 <= 41)%nat /\ easing_from 41 = Max.
Proof.
  destruct catalog_completeness as (H1 & _ & _ & H4 & H5).
  split; [lia |]. split; [apply H1; lia |].
  split; [lia |]. split; [apply H4; lia |].
  split; [lia | apply H5; lia].
Defined.

(** C8. For any libm, [apply(e, t)] returns a value for every one of the
    thirty variants and every input [t] (finite or not, in [[0, 1]] or
    not): no forward curve panics. *)
Theorem forward_total {L : Libm} :
  forall e t, e <> Max -> exists y, apply e t = Some y.
Proof.
  intros e t He. destruct e; try congruence; eexists; reflexivity.
Qed.

Lemma forward_total_witness :
  ElasticInOut <> Max /\ exists y, apply (L := correctly_rounded_libm) ElasticInOut 2 = Some y.
Proof.
  split; [discriminate |].
  apply (forward_total (L := correctly_rounded_libm) ElasticInOut 2).
  discriminate.
Defined.

(** C9. On the sentinel [Max] both [apply_function] and
    [inverse_function] hit [unreachable!()], so [apply(Max, t)] and
    [inverse(Max, t)] panic for every [t]. *)
Theorem max_panics {L : Libm} :
  forall t,
  apply_function Max = None /\ inverse_function Max = None /\
  apply Max t = None /\ inverse Max t = None.
Proof.
  intros t. repeat split.
Qed.

(** C10. Once [next] returns [None], the cursor is at [Max] and stays
    there: every later call of [next] returns [None] and leaves it
    unchanged. *)
Theorem iterator_stays_exhausted :
  forall it, fst (next it) = None ->
  current it = Max /\ forall n, next_n n it = (repeat None n, it).
Proof.
  intros [c] H. destruct c; try discriminate H.
  split; [reflexivity |].
  induction n as [|n IH]; [reflexivity |].
  cbn [next_n]. cbn [next current Easing_beq negb]. rewrite IH. reflexivity.
Qed.

Lemma iterator_stays_exhausted_witness :
  fst (next (snd (next_n 30 all))) = None /\
  next_n 3 (snd (next_n 30 all)) = (repeat None 3%nat, snd (next_n 30 all)).
Proof.
  split; [reflexivity |].
  apply (proj2 (iterator_stays_exhausted (snd (next_n 30 all)) eq_refl) 3%nat).
Defined.

(** The sample inputs [0.0, 0.1, ..., 1.0] (the [f64] literals). *)
Definition samples : list float := [0; 0.1; 0.2; 0.3; 0.4; 0.5; 0.6; 0.7; 0.8; 0.9; 1].

(** C3 (round-trip law). For the 21 reversible variants and every [t] in
    [0.0, 0.1, ..., 1.0], [inverse(apply(t))] returns a value within
    [1e-3] of [t] ([(y - t).abs() < 0.001] in [f64]), for every libm that
    is within two ulps of the correctly rounded result at the calls these
    evaluations make. *)
Theorem round_trip_law {L : Libm} :
  libm_within_two_ulps_at round_trip_points ->
  forall e, reversible e = true -> forall t, In t samples ->
  option_map (fun y => abs (y - t) < 0.001) (round_trip e t) = Some true.
Proof.
  intros H e He t Ht.
  destruct e; try discriminate He; cbn [In samples] in Ht;
    repeat (destruct Ht as [<- | Ht]; [eval_close H; reflexivity |]);
    destruct Ht.
Qed.

Lemma round_trip_law_witness :
  libm_within_two_ulps_at (L := correctly_rounded_libm) round_trip_points /\
  option_map (fun y => abs (y - 0.7) < 0.001)
    (round_trip (L := correctly_rounded_libm) ExpoInOut 0.7) = Some true.
Proof.
  assert (H : libm_within_two_ulps_at (L := correctly_rounded_libm) round_trip_points)
    by (unfold libm_within_two_ulps_at; check_points).
  split; [exact H |].
  apply (round_trip_law (L := correctly_rounded_libm) H ExpoInOut eq_refl 0.7).
  vm_compute; tauto.
Defined.

(** C6 (continuity at the [InOut] midpoint). For each of the ten [InOut]
    variants, the formula [e] uses below the midpoint and the formula it
    uses above it, both evaluated at [0.5], differ by less than [1e-6]
    (for [SineInOut] both are its single formula; [ElasticInOut] uses a
    third formula at [0.5] itself), for every libm within two ulps of the
    correctly rounded result at the calls made. *)
Theorem in_out_midpoint_continuity {L : Libm} :
  libm_within_two_ulps_at midpoint_points ->
  forall e, is_in_out e = true ->
  exists f g, in_out_halves e = Some (f, g) /\ (abs (f 0.5 - g 0.5) < 0.000001) = true.
Proof.
  intros H e He.
  destruct e; try discriminate He; do 2 eexists; (split; [reflexivity |]);
    eval_close H; reflexivity.
Qed.

Lemma in_out_midpoint_continuity_witness :
  libm_within_two_ulps_at (L := correctly_rounded_libm) midpoint_points /\
  exists f g, in_out_halves (L := correctly_rounded_libm) BounceInOut = Some (f, g) /\
    (abs (f 0.5 - g 0.5) < 0.000001) = true.
Proof.
  assert (H : libm_within_two_ulps_at (L := correctly_rounded_libm) midpoint_points)
    by (unfold libm_within_two_ulps_at; check_points).
  split; [exact H |].
  apply (in_out_midpoint_continuity (L := correctly_rounded_libm) H BounceInOut eq_refl).
Defined.

(** C7, refuted: with a libm that is correctly rounded at [cos(0.5 * PI)],
    [apply(SineInOut, 0.5)] is not [== 0.5]. *)
Lemma sine_in_out_half_not_exact :
  option_map (fun y => y == 0.5) (apply (L := correctly_rounded_libm) SineInOut 0.5)
  = Some false.
Proof. vm_compute. reflexivity. Qed.

(** C7, as the code computes it. [cos(0.5 * PI)] is about [6.1e-17], not
    [0] ([PI] is not [π]); [cos(0.5 * PI) - 1.0] then rounds to the float
    just above [-1.0], so [apply(SineInOut, 0.5)] returns the float just
    below [0.5], [0.49999999999999994], within [1e-6] of [0.5], for every
    libm within two ulps of the correctly rounded [cos] there. *)
Theorem sine_in_out_half {L : Libm} :
  libm_within_two_ulps_at midpoint_points ->
  apply SineInOut 0.5 = Some (next_down 0.5) /\
  (next_down 0.5 == 0.5) = false /\
  (abs (next_down 0.5 - 0.5) < 0.000001) = true.
Proof.
  intros H. split; [| split; reflexivity].
  eval_close H; reflexivity.
Qed.

Lemma sine_in_out_half_witness :
  libm_within_two_ulps_at (L := correctly_rounded_libm) midpoint_points /\
  apply (L := correctly_rounded_libm) SineInOut 0.5 = Some (next_down 0.5).
Proof.
  assert (H : libm_within_two_ulps_at (L := correctly_rounded_libm) midpoint_points)
    by (unfold libm_within_two_ulps_at; check_points).
  split; [exact H |].
  apply (sine_in_out_half (L := correctly_rounded_libm) H).
Defined.

(** ** Further properties of the code *)

(** [Easing::from(e as usize)] is [e] for every variant, the sentinel
    [Max] included: the conversion the iterator uses never lands on a
    different variant. *)
Theorem easing_from_ordinal :
  forall e, easing_from (ordinal e) = e.
Proof. destruct e; reflexivity. Qed.

(** Each call of [next] on a cursor that is not at [Max] returns the
    cursor's variant and moves the cursor to the next ordinal. *)
Theorem next_advances :
  forall it, current it <> Max ->
  fst (next it) = Some (current it) /\
  ordinal (current (snd (next it))) = S (ordinal (current it)).
Proof.
  intros [c] Hc. cbn in Hc.
  destruct c; try congruence; split; reflexivity.
Qed.

Lemma next_advances_witness :
  current {| current := BounceInOut |} <> Max /\
  ordinal (current (snd (next {| current := BounceInOut |}))) = 30%nat.
Proof.
  split; [discriminate |].
  exact (proj2 (next_advances {| current := BounceInOut |} ltac:(discriminate))).
Defined.

(** After [k <= 30] calls of [next] on [Easing::all()], the items are the
    first [k] variants in ordinal order and the cursor is at
    [Easing::from(k)]. *)
Theorem next_n_all_prefix :
  forall k, (k <= 30)%nat ->
  next_n k all = (map Some (firstn k catalog), {| current := easing_from k |}).
Proof.
  intros k Hk.
  do 31 (destruct k as [|k]; [reflexivity |]). lia.
Qed.

Lemma next_n_all_prefix_witness :
  (4 <= 30)%nat /\
  next_n 4 all = ([Some SineIn; Some SineOut; Some SineInOut; Some QuadIn],
                  {| current := QuadOut |}).
Proof.
  split; [lia |].
  exact (next_n_all_prefix 4 ltac:(lia)).
Defined.

(** Draining an [Easings] from any cursor yields the variants from the
    cursor's ordinal up to [BounceInOut], each once, and leaves the cursor
    at [Max]. *)
Theorem drain_from_cursor :
  forall it fuel, (31 <= fuel)%nat ->
  drain fuel it = (skipn (ordinal (current it)) catalog, {| current := Max |}) /\
  NoDup (fst (drain fuel it)).
Proof.
  intros [c] fuel Hf.
  replace fuel with (31 + (fuel - 31))%nat by lia.
  destruct c; cbn [current ordinal];
    (split; [reflexivity |]); cbn;
    repeat (constructor; [cbn; intuition discriminate |]); constructor.
Qed.

Lemma drain_from_cursor_witness :
  (31 <= 31)%nat /\
  drain 31 {| current := ElasticInOut |} =
    ([ElasticInOut; BounceIn; BounceOut; BounceInOut], {| current := Max |}).
Proof.
  split; [lia |].
  exact (proj1 (drain_from_cursor {| current := ElasticInOut |} 31 ltac:(lia))).
Defined.

(** For any libm, [inverse(e, t)] panics exactly when
    [e.reversible()] is [false]: on the nine Back, Elastic and Bounce
    variants ([unimplemented!]) and on [Max] ([unreachable!]). *)
Theorem inverse_panics_iff_irreversible {L : Libm} :
  forall e t, reversible e = false <-> inverse e t = None.
Proof.
  intros e t. destruct e; eval_code; split; intros H;
    solve [reflexivity | discriminate H].
Qed.

(** For any libm, the 24 variants outside the Elastic and Bounce families
    map [0.0] to a value [== 0.0] and [1.0] to a value [== 1.0]: either a
    guard returns [x] itself or the arithmetic is exact, and no libm call
    is evaluated. *)
Theorem boundary_law_without_libm {L : Libm} :
  forall e f, family e = Some f -> f <> Elastic -> f <> Bounce ->
  option_map (fun y => y == 0) (apply e 0) = Some true /\
  option_map (fun y => y == 1) (apply e 1) = Some true.
Proof.
  intros e f Hf HE HB.
  destruct e; cbn in Hf; try discriminate Hf; injection Hf as <-;
    try congruence; split; eval_code; reflexivity.
Qed.

Lemma boundary_law_without_libm_witness :
  family ExpoInOut = Some Expo /\ Expo <> Elastic /\ Expo <> Bounce /\
  option_map (fun y => y == 0) (apply (L := correctly_rounded_libm) ExpoInOut 0) = Some true.
Proof.
  split; [reflexivity |]. split; [discriminate |]. split; [discriminate |].
  exact (proj1 (boundary_law_without_libm (L := correctly_rounded_libm)
    ExpoInOut Expo eq_refl ltac:(discriminate) ltac:(discriminate))).
Defined.

(** The 21 inverse curves map [0.0] to [0.0] and [1.0] to [1.0] exactly,
    whenever libm returns the exact results of [cbrt] and [powf] at [0]
    and [1] (the only libm calls made there). *)
Theorem inverse_boundary_law {L : Libm} :
  libm_exact_at inverse_boundary_points ->
  forall e, reversible e = true -> inverse e 0 = Some 0 /\ inverse e 1 = Some 1.
Proof.
  intros H e He.
  destruct e; try discriminate He; split; eval_exact H; reflexivity.
Qed.

Lemma inverse_boundary_law_witness :
  libm_exact_at (L := extended_libm) inverse_boundary_points /\
  inverse (L := extended_libm) QuintOut 1 = Some 1.
Proof.
  assert (H : libm_exact_at (L := extended_libm) inverse_boundary_points)
    by (unfold libm_exact_at; check_points).
  split; [exact H |].
  exact (proj2 (inverse_boundary_law (L := extended_libm) H QuintOut eq_refl)).
Defined.

(** For any libm, the InOut variants of Quad, Cubic, Quart, Quint, Circ
    and Back meet exactly at the midpoint: both half formulas evaluate
    to [0.5] at [0.5], and so does [apply]. *)
Theorem in_out_exact_midpoint {L : Libm} :
  forall e fam f g, family e = Some fam -> In fam exact_midpoint_families ->
  in_out_halves e = Some (f, g) ->
  f 0.5 = 0.5 /\ g 0.5 = 0.5 /\ apply e 0.5 = Some 0.5.
Proof.
  intros e fam f g Hf Hin Hh.
  destruct e; cbn in Hh; try discriminate Hh; injection Hh as <- <-;
    cbn in Hf; injection Hf as <-; cbn in Hin; try (exfalso; intuition discriminate);
    repeat split; eval_code; reflexivity.
Qed.

Lemma in_out_exact_midpoint_witness :
  family BackInOut = Some Back /\ In Back exact_midpoint_families /\
  in_out_halves (L := correctly_rounded_libm) BackInOut
    = Some (back_in_out_in_half, back_in_out_out_half) /\
  apply (L := correctly_rounded_libm) BackInOut 0.5 = Some 0.5.
Proof.
  split; [reflexivity |]. split; [cbn; tauto |]. split; [reflexivity |].
  exact (proj2 (proj2 (in_out_exact_midpoint (L := correctly_rounded_libm)
    BackInOut Back _ _ eq_refl ltac:(cbn; tauto) eq_refl))).
Defined.

(** NaN propagates: no guard catches it ([NaN == 0.0] and [NaN < 0.5] are
    false), so every forward curve and every implemented inverse returns
    NaN at NaN, whenever libm returns NaN at a NaN argument. *)
Theorem nan_propagation {L : Libm} :
  libm_exact_at nan_points ->
  forall e, e <> Max ->
  option_map is_nan (apply e nan) = Some true /\
  (reversible e = true -> option_map is_nan (inverse e nan) = Some true).
Proof.
  intros H e He.
  destruct e; try congruence;
    (split;
      [eval_exact H; reflexivity
      | intros Hr; try discriminate Hr; eval_exact H; reflexivity]).
Qed.

Lemma nan_propagation_witness :
  libm_exact_at (L := extended_libm) nan_points /\
  option_map is_nan (apply (L := extended_libm) BounceInOut nan) = Some true.
Proof.
  assert (H : libm_exact_at (L := extended_libm) nan_points)
    by (unfold libm_exact_at; check_points).
  split; [exact H |].
  exact (proj1 (nan_propagation (L := extended_libm) H BounceInOut ltac:(discriminate))).
Defined.

(** The variants the example's picker can store are among the thirty
    variants of the catalog. *)
Lemma example_reachable_catalog :
  forall e, example_reachable e -> In e catalog.
Proof.
  intros e He. induction He as [| e e' _ IH Hs].
  - cbn; tauto.
  - destruct Hs as [e | e e' Hin]; [exact IH |].
    change (fst (drain 31 all)) with catalog in Hin. exact Hin.
Qed.

(** The example never reaches the [unreachable!()] of [Max]: the easing
    it holds, initially [SineIn] and then only values listed by
    [Easing::all()], is never [Max], and the circle radius is computed for
    every frame time [t], for any libm. *)
Theorem example_never_panics {L : Libm} :
  forall e, example_reachable e ->
  e <> Max /\ forall t, exists r, example_radius e t = Some r.
Proof.
  intros e He. apply example_reachable_catalog in He.
  cbn in He.
  repeat (destruct He as [<- | He]; [split; [discriminate | intros t; eexists; reflexivity] |]).
  destruct He.
Qed.

Lemma example_never_panics_witness :
  example_reachable BackOut /\
  exists r, example_radius (L := correctly_rounded_libm) BackOut 2 = Some r.
Proof.
  assert (H : example_reachable BackOut).
  { apply (reach_step SineIn BackOut reach_default).
    apply picker_select. vm_compute. tauto. }
  split; [exact H |].
  exact (proj2 (example_never_panics (L := correctly_rounded_libm) BackOut H) 2).
Defined.

(** In the example, whatever easing is selected, the circle radius is
    exactly [10.0] when [sin t] is [±0.0] and exactly [40.0] when
    [sin t] is [±1.0], whenever libm is correctly rounded at the calls of
    the curves at [0.0] and [1.0]. *)
Theorem example_radius_rest_and_peak {L : Libm} :
  libm_exact_at boundary_points ->
  forall e t, example_reachable e ->
  ((sin t = 0 \/ sin t = -0) -> example_radius e t = Some 10) /\
  ((sin t = 1 \/ sin t = -1) -> example_radius e t = Some 40).
Proof.
  intros H e t He. apply example_reachable_catalog in He.
  cbn in He. unfold example_radius.
  repeat (destruct He as [<- | He];
    [split; intros [Hs | Hs]; rewrite Hs; eval_exact H; reflexivity |]).
  destruct He.
Qed.

Lemma example_radius_rest_and_peak_witness :
  libm_exact_at (L := correctly_rounded_libm) boundary_points /\
  example_reachable ElasticOut /\
  (sin (Libm := correctly_rounded_libm) 0 = 0 \/ sin (Libm := correctly_rounded_libm) 0 = -0) /\
  example_radius (L := correctly_rounded_libm) ElasticOut 0 = Some 10.
Proof.
  assert (H : libm_exact_at (L := correctly_rounded_libm) boundary_points)
    by (unfold libm_exact_at; check_points).
  assert (He : example_reachable ElasticOut).
  { apply (reach_step SineIn ElasticOut reach_default).
    apply picker_select. vm_compute. tauto. }
  assert (Hs : sin (Libm := correctly_rounded_libm) 0 = 0 \/
               sin (Libm := correctly_rounded_libm) 0 = -0)
    by (left; vm_compute; reflexivity).
  split; [exact H |]. split; [exact He |]. split; [exact Hs |].
  exact (proj1 (example_radius_rest_and_peak (L := correctly_rounded_libm) H ElasticOut 0 He) Hs).
Defined.

(** A test body whose assertions all hold runs to completion. *)
Lemma run_all :
  forall asserts, Forall (fun a => check a = Some true) asserts -> run asserts = true.
Proof.
  induction 1 as [| a rest Ha _ IH]; [reflexivity |].
  cbn. rewrite Ha. exact IH.
Qed.

(** For any libm, the 33 unit tests whose functions call no libm function
    pass: every assertion of the Quad and Circ tests and of the forward
    Cubic, Quart, Quint and Back tests holds, and every
    [#[should_panic]] test panics (at its first call). *)
Theorem libm_free_tests_pass {L : Libm} :
  Forall (fun t => passes t = true) libm_free_tests.
Proof.
  unfold libm_free_tests.
  repeat apply Forall_cons; try apply Forall_nil;
    eval_code; reflexivity.
Qed.

(** Every one of the 60 unit tests of [easing.rs] passes, for every libm
    that is exact at the calls of the [assert_eq!] assertions and within
    two ulps of the correctly rounded result at the calls of the
    [assert_approx_eq!] assertions. *)
Theorem unit_tests_pass {L : Libm} :
  libm_exact_at test_exact_points ->
  libm_within_two_ulps_at test_close_points ->
  Forall (fun t => passes t = true) tests.
Proof.
  intros He Hc. unfold tests.
  repeat apply Forall_cons; try apply Forall_nil;
    match goal with
    | |- passes ?t = true =>
        let T := eval hnf in t in
        change (passes T = true); unfold passes; cbn [should_panic body];
        first
          [ eval_code; reflexivity
          | apply run_all;
            repeat apply Forall_cons; try apply Forall_nil;
            first [ eval_exact He; reflexivity | eval_close Hc; reflexivity ] ]
    end.
Qed.

Lemma unit_tests_pass_witness :
  libm_exact_at (L := extended_libm) test_exact_points /\
  libm_within_two_ulps_at (L := extended_libm) test_close_points /\
  Forall (fun t => passes t = true) (tests (L := extended_libm)).
Proof.
  assert (He : libm_exact_at (L := extended_libm) test_exact_points)
    by (unfold libm_exact_at; check_points).
  assert (Hc : libm_within_two_ulps_at (L := extended_libm) test_close_points)
    by (unfold libm_within_two_ulps_at; check_points).
  split; [exact He |]. split; [exact Hc |].
  exact (unit_tests_pass (L := extended_libm) He Hc).
Defined.
